(** * Reference layout, request history list and embedded client mount

    A shallow embedding of the presentation logic of

    - [RequestHistory.vue] (the request-history table),
    - the [createApiClientWeb] mount test, and
    - the reference layout component (mount hook, server prefetch hook,
      debounced scroll handler, resize observer callback and template),

    together with the properties the specification states about them.

    The file has two parts: the embedding (definitions), then the
    theorems. *)

From Stdlib Require Import PrimFloat Ascii.
From stdpp Require Import gmap strings list pretty.

Set Default Proof Using "Type".

(** ** JavaScript values *)

Module Js.

(** Numbers are IEEE-754 doubles. *)
Abbreviation number := PrimFloat.float.

(** [ToBoolean] on strings: only the empty string is falsy. *)
Definition truthy_string (s : string) : bool :=
  match s with
  | EmptyString => false
  | String _ _ => true
  end.

(** [ToBoolean] on [boolean | undefined]. *)
Definition truthy_flag (b : option bool) : bool := default false b.

(** [ToBoolean] on [string | null]. *)
Definition truthy_nullable (s : option string) : bool :=
  match s with
  | Some s => truthy_string s
  | None => false
  end.

(** [a ?? b] *)
Definition nullish {A} (a : option A) (b : A) : A := default b a.

(** [xs?.[0]] *)
Definition first {A} (xs : option (list A)) : option A := xs ≫= head.

(** Runtime errors a handler can raise. *)
Inductive error :=
| TypeError (msg : string).

(** Outcome of running a callback: it returns or it throws. *)
Inductive result (A : Type) :=
| Ok (a : A)
| Throw (e : error).
Global Arguments Ok {A} a.
Global Arguments Throw {A} e.

(** [haystack.includes(needle)], by trying every offset of the haystack. *)
Fixpoint includes (needle haystack : string) : bool :=
  String.prefix needle haystack ||
  match haystack with
  | EmptyString => false
  | String _ rest => includes needle rest
  end.

End Js.

(** ** Parsed document *)

Record Tag := {
  tag_name : string;
  tag_description : option string;
}.

Record Spec := {
  tags : option (list Tag);
  security : list string;
}.

(** ** Virtual DOM

    What a template renders: elements with their classes and inline style,
    child components with the props and slots handed to them, and text.
    Event listeners are not part of the tree. *)

Inductive CssValue :=
| CssKeyword (s : string)
| CssPixels (n : Js.number).

Inductive PropValue :=
| PropString (s : option string)
| PropSpec (s : Spec).

#[warnings="-register-all"]
Inductive VNode :=
| VElement (tag : string) (classes : list string)
    (style : list (string * CssValue)) (children : list VNode)
| VComponent (name : string) (key : option string)
    (props : list (string * PropValue)) (slots : list (string * list VNode))
| VText (text : string).

Definition vnode_classes (v : VNode) : list string :=
  match v with
  | VElement _ cs _ _ => cs
  | _ => []
  end.

Definition vnode_children (v : VNode) : list VNode :=
  match v with
  | VElement _ _ _ ch => ch
  | _ => []
  end.

Definition vnode_key (v : VNode) : option string :=
  match v with
  | VComponent _ k _ _ => k
  | _ => None
  end.

Definition has_class (c : string) (v : VNode) : bool :=
  existsb (String.eqb c) (vnode_classes v).

(** The direct children of [v] carrying class [c]. *)
Definition children_with_class (c : string) (v : VNode) : list VNode :=
  List.filter (has_class c) (vnode_children v).

(** Does [v] have a direct child carrying class [c]? *)
Definition renders_region (c : string) (v : VNode) : bool :=
  existsb (has_class c) (vnode_children v).

(** A [class] binding with an object literal: the names whose flag is set. *)
Definition class_object (flags : list (string * bool)) : list string :=
  fst <$> List.filter snd flags.

(** ** The browser's address bar

    The current URL without its origin, for instance [/docs?lang=en#tag/pets],
    and the three accessors of [window.location] the layout reads. *)

Module Url.

(** The part of [s] before the first [c]. *)
Fixpoint before (c : ascii) (s : string) : string :=
  match s with
  | EmptyString => EmptyString
  | String a rest => if Ascii.eqb a c then EmptyString else String a (before c rest)
  end.

(** The part of [s] from the first [c] on, [c] included. *)
Fixpoint from (c : ascii) (s : string) : string :=
  match s with
  | EmptyString => EmptyString
  | String a rest => if Ascii.eqb a c then s else from c rest
  end.

(** A lone delimiter reads as the empty string. *)
Definition drop_lone (c : ascii) (s : string) : string :=
  if String.eqb s (String c EmptyString) then EmptyString else s.

Definition pathname (href : string) : string :=
  before "?"%char (before "#"%char href).

Definition search (href : string) : string :=
  drop_lone "?"%char (from "?"%char (before "#"%char href)).

Definition hash (href : string) : string :=
  drop_lone "#"%char (from "#"%char href).

End Url.

(** ** Layout configuration and slots *)

Record ReferenceConfiguration := {
  isEditable : option bool;
  showSidebar : option bool;
  layout : option string;
  theme : option string;
  proxy : option string;
  config_hideModels : option bool;
}.

Record ReferenceLayoutProps := {
  parsedSpec : Spec;
  rawSpec : string;
  configuration : ReferenceConfiguration;
}.

(** The payload forwarded to every slot. *)
Record ReferenceSlotProps := {
  slot_breadcrumb : string;
  slot_spec : Spec;
}.

(** The named extension points of the layout. *)
Inductive ReferenceLayoutSlot :=
| slot_header
| slot_sidebar_start
| slot_sidebar_end
| slot_editor
| slot_content_start
| slot_content_end
| slot_footer.

(** [$slots]: the slots the caller supplied, each a render function. *)
Definition Slots : Type :=
  ReferenceLayoutSlot → option (ReferenceSlotProps → list VNode).

(** [$slots.name] as a condition. *)
Definition slot_supplied (slots : Slots) (name : ReferenceLayoutSlot) : bool :=
  match slots name with
  | Some _ => true
  | None => false
  end.

(** [<slot name=... v-bind=.../>] without fallback content. *)
Definition render_slot (slots : Slots) (name : ReferenceLayoutSlot)
    (p : ReferenceSlotProps) : list VNode :=
  match slots name with
  | Some f => f p
  | None => []
  end.

(** ** Server-side rendering hand-off *)

(** A value stored in the hand-off structure. *)
Inductive SSRValue :=
| SSRCollapsedItems (items : gmap string bool)
| SSROther (payload : string).

Record SSRContext := {
  scalarState : option (gmap string SSRValue);
}.

(** ** Component state

    Everything the layout's script reads or writes: the refs of the
    navigation and sidebar hooks, its own refs, and the pieces of the
    browser it touches. *)

Record ScrollPosition := {
  scroll_top : Js.number;
  scroll_left : Js.number;
}.

Record State := {
  hash : string;
  collapsedSidebarItems : gmap string bool;
  isSidebarOpen : bool;
  breadcrumb : string;
  hideModels : bool;
  elementHeight : CssValue;
  viewportWidth : Js.number;
  href : string;
  tippy : option ScrollPosition;
  downloadSpecBus : list string;
  ssrContext : option SSRContext;
}.

Definition set_hash (h : string) (st : State) : State :=
  {| hash := h;
     collapsedSidebarItems := collapsedSidebarItems st;
     isSidebarOpen := isSidebarOpen st;
     breadcrumb := breadcrumb st;
     hideModels := hideModels st;
     elementHeight := elementHeight st;
     viewportWidth := viewportWidth st;
     href := href st;
     tippy := tippy st;
     downloadSpecBus := downloadSpecBus st;
     ssrContext := ssrContext st |}.

Definition set_collapsedSidebarItems (m : gmap string bool) (st : State) : State :=
  {| hash := hash st;
     collapsedSidebarItems := m;
     isSidebarOpen := isSidebarOpen st;
     breadcrumb := breadcrumb st;
     hideModels := hideModels st;
     elementHeight := elementHeight st;
     viewportWidth := viewportWidth st;
     href := href st;
     tippy := tippy st;
     downloadSpecBus := downloadSpecBus st;
     ssrContext := ssrContext st |}.

Definition set_elementHeight (h : CssValue) (st : State) : State :=
  {| hash := hash st;
     collapsedSidebarItems := collapsedSidebarItems st;
     isSidebarOpen := isSidebarOpen st;
     breadcrumb := breadcrumb st;
     hideModels := hideModels st;
     elementHeight := h;
     viewportWidth := viewportWidth st;
     href := href st;
     tippy := tippy st;
     downloadSpecBus := downloadSpecBus st;
     ssrContext := ssrContext st |}.

Definition set_href (u : string) (st : State) : State :=
  {| hash := hash st;
     collapsedSidebarItems := collapsedSidebarItems st;
     isSidebarOpen := isSidebarOpen st;
     breadcrumb := breadcrumb st;
     hideModels := hideModels st;
     elementHeight := elementHeight st;
     viewportWidth := viewportWidth st;
     href := u;
     tippy := tippy st;
     downloadSpecBus := downloadSpecBus st;
     ssrContext := ssrContext st |}.

Definition set_tippy (t : option ScrollPosition) (st : State) : State :=
  {| hash := hash st;
     collapsedSidebarItems := collapsedSidebarItems st;
     isSidebarOpen := isSidebarOpen st;
     breadcrumb := breadcrumb st;
     hideModels := hideModels st;
     elementHeight := elementHeight st;
     viewportWidth := viewportWidth st;
     href := href st;
     tippy := t;
     downloadSpecBus := downloadSpecBus st;
     ssrContext := ssrContext st |}.

Definition set_downloadSpecBus (b : list string) (st : State) : State :=
  {| hash := hash st;
     collapsedSidebarItems := collapsedSidebarItems st;
     isSidebarOpen := isSidebarOpen st;
     breadcrumb := breadcrumb st;
     hideModels := hideModels st;
     elementHeight := elementHeight st;
     viewportWidth := viewportWidth st;
     href := href st;
     tippy := tippy st;
     downloadSpecBus := b;
     ssrContext := ssrContext st |}.

Definition set_ssrContext (c : option SSRContext) (st : State) : State :=
  {| hash := hash st;
     collapsedSidebarItems := collapsedSidebarItems st;
     isSidebarOpen := isSidebarOpen st;
     breadcrumb := breadcrumb st;
     hideModels := hideModels st;
     elementHeight := elementHeight st;
     viewportWidth := viewportWidth st;
     href := href st;
     tippy := tippy st;
     downloadSpecBus := downloadSpecBus st;
     ssrContext := c |}.

(** ** Sidebar state hook *)

Module Sidebar.

(** Modelled from the spec: [setCollapsedSidebarItem] belongs to the
    sidebar hook, whose file is not among the sources. The collapse-state
    map is "a mapping from section identifier to boolean
    expanded/collapsed" that the sidebar collaborator "supplies/accepts";
    setting an item writes that section's entry. *)
Definition setCollapsedSidebarItem (key : string) (value : bool)
    (st : State) : State :=
  set_collapsedSidebarItems (<[key := value]> (collapsedSidebarItems st)) st.

(** Modelled from the spec: "each node's expanded/collapsed state is looked
    up from the shared collapse-state map"; a section without an entry is
    shown collapsed. *)
Definition isExpanded (items : gmap string bool) (key : string) : bool :=
  default false (items !! key).

(** Modelled from the spec: the sidebar's toggle is not among the sources;
    "toggling a node flips its entry", the entry being the state looked up
    for the node. *)
Definition toggleCollapsedSidebarItem (key : string)
    (items : gmap string bool) : gmap string bool :=
  <[key := negb (isExpanded items key)]> items.

End Sidebar.

(** ** The reference layout's script *)

Module ReferenceLayout.

Record DOMRectReadOnly := {
  rect_width : Js.number;
  rect_height : Js.number;
}.

Record ResizeObserverEntry := {
  contentRect : DOMRectReadOnly;
}.

(** A scroll event as the handler reads it: [value.target.scrollTop], which
    is [undefined] when the target has no such property. *)
Record ScrollEvent := {
  target_scrollTop : option Js.number;
}.

(** Key of the collapse-state map in the hand-off structure. *)
Definition handoff_key : string := "useSidebarContent-collapsedSidebarItems".

Section script.

(** The navigation hook and the state factory are collaborators: the
    script only calls them. *)
Variable getSectionId : string → option string.
Variable getTagId : Tag → string.
Variable defaultStateFactory : gmap string SSRValue.

Variable props : ReferenceLayoutProps.

(** [useMediaQuery('(min-width: 1150px)')] *)
Definition isLargeScreen (st : State) : bool :=
  PrimFloat.leb 1150 (viewportWidth st).

(** The callback handed to [useResizeObserver]: [entries[0]] is [undefined]
    on an empty list, and reading [contentRect] of it throws. *)
Definition resizeObserverCallback (entries : list ResizeObserverEntry)
    (st : State) : Js.result State :=
  match entries with
  | [] =>
      Js.Throw (Js.TypeError "Cannot read properties of undefined (reading 'contentRect')")
  | e :: _ =>
      Js.Ok (set_elementHeight (CssPixels (rect_height (contentRect e))) st)
  end.

(** [document.querySelector('#tippy')?.scrollTo({ top: 0, left: 0 })] *)
Definition scrollTippyToTop (st : State) : State :=
  set_tippy ((λ _, {| scroll_top := 0; scroll_left := 0 |}) <$> tippy st) st.

(** [props.parsedSpec.tags?.[0]] *)
Definition firstTag : option Tag := Js.first (tags (parsedSpec props)).

(** The [sectionId] variable of [onMounted] once both branches have run. *)
Definition mountSectionId (st : State) : option string :=
  if Js.truthy_string (hash st) then getSectionId (hash st)
  else match firstTag with
       | Some t => Some (getTagId t)
       | None => None
       end.

Definition onMounted (st : State) : State :=
  let st1 := if Js.truthy_string (hash st) then st else scrollTippyToTop st in
  let sectionId := mountSectionId st1 in
  let st2 :=
    match sectionId with
    | Some s =>
        if Js.truthy_string s then Sidebar.setCollapsedSidebarItem s true st1
        else st1
    | None => st1
    end in
  set_downloadSpecBus (downloadSpecBus st2 ++ [rawSpec props]) st2.

Definition showRenderedContent (st : State) : bool :=
  isLargeScreen st || negb (Js.truthy_flag (isEditable (configuration props))).

(** [window.history.replaceState({}, '', url)] *)
Definition history_replaceState (url : string) (st : State) : State :=
  set_href url st.

(** The function wrapped by [useDebounceFn]; the wrapper only decides which
    scroll events reach it. *)
Definition debouncedScroll (value : ScrollEvent) (st : State) : State :=
  let scrollDistance := Js.nullish (target_scrollTop value) 0%float in
  if PrimFloat.ltb scrollDistance 50 then
    set_hash ""
      (history_replaceState (Url.pathname (href st) ++ Url.search (href st)) st)
  else st.

Definition referenceSlotProps (st : State) : ReferenceSlotProps :=
  {| slot_breadcrumb := breadcrumb st; slot_spec := parsedSpec props |}.

(** [ctx.scalarState ||= defaultStateFactory()] followed by the write of
    the collapse-state map. *)
Definition handoff (items : gmap string bool) (ctx : SSRContext) : SSRContext :=
  let scalar := default defaultStateFactory (scalarState ctx) in
  {| scalarState := Some (<[handoff_key := SSRCollapsedItems items]> scalar) |}.

Definition onServerPrefetch (st : State) : State :=
  let st1 :=
    match firstTag with
    | Some t => Sidebar.setCollapsedSidebarItem (getTagId t) true st
    | None => st
    end in
  match ssrContext st1 with
  | None => st1
  | Some ctx =>
      set_ssrContext (Some (handoff (collapsedSidebarItems st1) ctx)) st1
  end.

End script.

(** *** Template *)

Section template.

Variable props : ReferenceLayoutProps.

(** [$slots], [$attrs.class], and the class names handed down by the
    [ResetStyles] and [ScrollbarStyles] wrappers. *)
Variable slots : Slots.
Variable attrs_class : list string.
Variable reset scrollbars : string.

Variable st : State.

Let cfg : ReferenceConfiguration := configuration props.
Let slotProps : ReferenceSlotProps := referenceSlotProps props st.

Definition is_classic : bool := bool_decide (layout cfg = Some "classic").

Definition header_region : VNode :=
  VElement "div" ["references-header"] []
    (render_slot slots slot_header slotProps).

Definition navigation_region : VNode :=
  VElement "aside" ["references-navigation"; "t-doc__sidebar"] []
    [VElement "div" ["references-navigation-list"] []
       [VComponent "Sidebar" None
          [("parsedSpec", PropSpec (parsedSpec props))]
          [("sidebar-start", render_slot slots slot_sidebar_start slotProps);
           ("sidebar-end", render_slot slots slot_sidebar_end slotProps)]]].

(** [v-show] keeps the element and hides it with an inline style. *)
Definition editor_region : VNode :=
  VElement "div" ["references-editor"]
    (if Js.truthy_flag (isEditable cfg) then []
     else [("display", CssKeyword "none")])
    [VElement "div" ["references-editor-textarea"] []
       (render_slot slots slot_editor slotProps)].

Definition getting_started : VNode :=
  VComponent "GettingStarted" None
    [("theme",
      PropString (Some (if Js.truthy_nullable (theme cfg)
                        then default "" (theme cfg) else "default")))]
    [].

Definition rendered_region : VNode :=
  VElement "div" ["references-rendered"] []
    [VComponent "Content" None
       [("layout", PropString (Some (if is_classic then "accordion" else "default")));
        ("parsedSpec", PropSpec (parsedSpec props))]
       ([("start", render_slot slots slot_content_start slotProps)]
        ++ (if Js.truthy_flag (isEditable cfg)
            then [("empty-state", [getting_started])] else [])
        ++ [("end", render_slot slots slot_content_end slotProps)])].

Definition footer_region : VNode :=
  VElement "div" ["references-footer"] []
    (render_slot slots slot_footer slotProps).

Definition api_client_modal : VNode :=
  VComponent "ApiClientModal" None
    [("parsedSpec", PropSpec (parsedSpec props));
     ("proxyUrl", PropString (proxy cfg))]
    [("sidebar-start", render_slot slots slot_sidebar_start slotProps);
     ("sidebar-end", render_slot slots slot_sidebar_end slotProps)].

(** The [div] bound to [documentEl]. *)
Definition document_element : VNode :=
  VElement "div"
    (["scalar-api-reference"; "references-layout"]
     ++ class_object
          [("references-editable", Js.truthy_flag (isEditable cfg));
           ("references-sidebar", Js.truthy_flag (showSidebar cfg));
           ("references-sidebar-mobile-open", isSidebarOpen st);
           ("references-classic", is_classic)]
     ++ [reset; scrollbars] ++ attrs_class)
    [("--full-height", elementHeight st)]
    ([header_region]
     ++ (if Js.truthy_flag (showSidebar cfg) then [navigation_region] else [])
     ++ [editor_region]
     ++ (if showRenderedContent props st
         then [rendered_region]
              ++ (if slot_supplied slots slot_footer then [footer_region] else [])
         else [])
     ++ [api_client_modal]).

Definition template : list VNode :=
  [VComponent "ThemeStyles" None [("id", PropString (theme cfg))] [];
   VComponent "ResetStyles" None []
     [("default",
       [VComponent "ScrollbarStyles" None []
          [("default", [document_element])]])];
   VComponent "CustomToaster" None [] []].

End template.

End ReferenceLayout.

(** ** The request history table *)

Module RequestHistory.

Record HistoryRequest := {
  request_method : string;
  request_target : string;
}.

Record HistoryResponse := {
  response_status : N;
  response_elapsed : N;
}.

Record HistoryEntry := {
  entry_request : HistoryRequest;
  entry_response : option HistoryResponse;
}.

(** [useRequestStore()]: the ids in display order and the entries they
    name. The table itself reads [requestHistoryOrder] only. *)
Record RequestStore := {
  requestHistoryOrder : list string;
  requestHistory : gmap string HistoryEntry;
}.

Definition table_cell (width : string) : VNode :=
  VElement "div" [width] [] [].

Definition heading_cell (width label : string) : VNode :=
  VElement "div" [width] [] [VElement "label" [] [] [VText label]].

(** One [RequestHistoryItem] per element of the [v-for], keyed by it. *)
Definition history_item (history : string) : VNode :=
  VComponent "RequestHistoryItem" (Some history)
    [("history", PropString (Some history))] [].

Definition table_radios (store : RequestStore) : VNode :=
  VElement "div" ["navtable-radios"] []
    (history_item <$> requestHistoryOrder store).

Definition template (store : RequestStore) : VNode :=
  VElement "div" ["navigation-content-item"] []
    [VElement "div" ["navtable"] []
       [VElement "div" ["navtable-table"] []
          [VElement "div" ["navtable-item"; "navtable-item__top"] []
             [heading_cell "navtable-item-40" "Request";
              heading_cell "navtable-item-40" "Response";
              heading_cell "navtable-item-20" "TIME"];
           table_radios store;
           VElement "div" ["navtable-mock"] []
             [VElement "div" ["navtable-item"] []
                [table_cell "navtable-item-40";
                 table_cell "navtable-item-40";
                 table_cell "navtable-item-20"]]]]].

(** Follow a path of class names down the tree, one level per name. *)
Fixpoint descend (path : list string) (v : VNode) : list VNode :=
  match path with
  | [] => [v]
  | c :: rest => children_with_class c v ≫= descend rest
  end.

(** The items the table renders, in document order. *)
Definition rendered_items (store : RequestStore) : list VNode :=
  descend ["navtable"; "navtable-table"; "navtable-radios"] (template store)
    ≫= vnode_children.






End RequestHistory.

(** ** Mounting the embedded client *)

Module Dom.

#[warnings="-register-all"]
Inductive node :=
| Element (tag : string) (attrs : list (string * string)) (children : list node)
| Text (data : string).

Definition quote : string := String "034"%char EmptyString.

Definition attribute_html (a : string * string) : string :=
  " " ++ a.1 ++ "=" ++ quote ++ a.2 ++ quote.

Fixpoint outerHTML (n : node) : string :=
  match n with
  | Element tag attrs children =>
      "<" ++ tag ++ String.concat "" (attribute_html <$> attrs) ++ ">"
      ++ String.concat "" (map outerHTML children)
      ++ "</" ++ tag ++ ">"
  | Text data => data
  end.

(** A container element, as [document.createElement] returns it. *)
Record HTMLElement := {
  tagName : string;
  attributes : list (string * string);
  childNodes : list node;
}.

Definition createElement (tag : string) : HTMLElement :=
  {| tagName := tag; attributes := []; childNodes := [] |}.

Definition innerHTML (el : HTMLElement) : string :=
  String.concat "" (map outerHTML (childNodes el)).

End Dom.

Module ApiClientWeb.

Record ClientConfiguration := {
  proxyUrl : option string;
}.

(** The widget's root marker. *)
Definition root_marker : string := "scalar-app".

Section mount.

(** What the client application renders inside its root element. *)
Variable app_view : ClientConfiguration → list Dom.node.

(** Modelled from the spec: [create-api-client-web] is not among the
    sources, only its test is. "Mounting the embedded client widget into an
    empty container always results in the container's rendered output
    containing the widget's root marker element": the mount replaces the
    container's content by the widget's root element, which carries the
    marker as its class. *)
Definition createApiClientWeb (el : Dom.HTMLElement)
    (config : ClientConfiguration) : Dom.HTMLElement :=
  {| Dom.tagName := Dom.tagName el;
     Dom.attributes := Dom.attributes el;
     Dom.childNodes :=
       [Dom.Element "div" [("class", root_marker)] (app_view config)] |}.

End mount.

End ApiClientWeb.

(** ** Statements about the hooks *)

(** [c] does not occur in [s]. *)
Definition free_of (c : ascii) (s : string) : Prop := Url.from c s = "".

(** The initially expanded section in the specification's words: "if a URL
    fragment is present, expand the section it identifies; otherwise expand
    the first top-level tag". *)
Definition spec_initial_section (getSectionId : string → option string)
    (getTagId : Tag → string) (props : ReferenceLayoutProps)
    (fragment : string) : option string :=
  if bool_decide (fragment ≠ "") then getSectionId fragment
  else getTagId <$> head (default [] (tags (parsedSpec props))).

(** The section the server pass expands. *)
Definition server_section (getTagId : Tag → string)
    (props : ReferenceLayoutProps) : option string :=
  getTagId <$> ReferenceLayout.firstTag props.

(** The server pass computes the same expansion as the mount hook. *)
Definition server_agrees_with_mount (getSectionId : string → option string)
    (getTagId : Tag → string) (defaultStateFactory : gmap string SSRValue)
    (props : ReferenceLayoutProps) (st : State) : Prop :=
  collapsedSidebarItems
    (ReferenceLayout.onServerPrefetch getTagId defaultStateFactory props st)
  = collapsedSidebarItems
      (ReferenceLayout.onMounted getSectionId getTagId props st).

(** ** Sample data

    A small document, the navigation hook's resolvers as the sidebar uses
    them, and a few states; the statements below are also exercised on
    these. *)

Module Sample.

Definition getTagId (t : Tag) : string := "tag/" ++ tag_name t.

Definition getSectionId (h : string) : option string :=
  if String.prefix "tag/" h then Some h
  else if String.prefix "model" h then Some "models"
  else Some "".

Definition pets : Tag := {| tag_name := "pets"; tag_description := None |}.
Definition store : Tag := {| tag_name := "store"; tag_description := Some "Orders" |}.

Definition spec : Spec := {| tags := Some [pets; store]; security := [] |}.

Definition editable : ReferenceConfiguration :=
  {| isEditable := Some true; showSidebar := Some true; layout := None;
     theme := None; proxy := None; config_hideModels := None |}.

Definition props : ReferenceLayoutProps :=
  {| parsedSpec := spec; rawSpec := "openapi: 3.1.0"; configuration := editable |}.

(** A phone-sized client that opened [/docs?lang=en#tag/store]. *)
Definition at_fragment : State :=
  {| hash := "tag/store";
     collapsedSidebarItems := ∅;
     isSidebarOpen := false;
     breadcrumb := "";
     hideModels := false;
     elementHeight := CssKeyword "100dvh";
     viewportWidth := 800%float;
     href := "/docs?lang=en#tag/store";
     tippy := Some {| scroll_top := 120%float; scroll_left := 0%float |};
     downloadSpecBus := [];
     ssrContext := None |}.

(** The same client without a fragment. *)
Definition at_top : State :=
  set_hash "" (set_href "/docs?lang=en" at_fragment).

(** A server render pass with a fresh context. *)
Definition on_server : State :=
  set_ssrContext (Some {| scalarState := None |}) at_top.

Definition footer_only : Slots :=
  λ name,
    match name with
    | slot_footer => Some (λ _, [VText "footer"])
    | _ => None
    end.

Definition history : RequestHistory.RequestStore :=
  {| RequestHistory.requestHistoryOrder := ["b"; "a"];
     RequestHistory.requestHistory :=
       {[ "a" := {| RequestHistory.entry_request :=
                      {| RequestHistory.request_method := "get";
                         RequestHistory.request_target := "/pets" |};
                    RequestHistory.entry_response :=
                      Some {| RequestHistory.response_status := 200%N;
                              RequestHistory.response_elapsed := 12%N |} |};
          "b" := {| RequestHistory.entry_request :=
                      {| RequestHistory.request_method := "post";
                         RequestHistory.request_target := "/pets" |};
                    RequestHistory.entry_response := None |} ]} |}.

End Sample.

(** ** Shared instance id

    The callback handed to [provideUseId]: it returns the id headless UI
    uses, and on the server stores the instance's uid among its attributes
    so that the client can read it back from the rendered element. *)

Module InstanceId.

Definition ATTR_KEY : string := "scalar-instance-id".

(** A value kept in [instance.attrs]. *)
Inductive AttrValue :=
| AttrNumber (n : N)
| AttrString (s : string).

(** [instance.vnode.el]: only an element has [getAttribute]. *)
Inductive HostNode :=
| HostElement (attributes : gmap string string)
| HostOther.

(** The current component instance; [uid] is the framework's counter. *)
Record ComponentInstance := {
  uid : N;
  attrs : option (gmap string AttrValue);
  vnode_el : option HostNode;
}.

(** What [instanceId] holds: the uid, or the result of [getAttribute]. *)
Inductive IdValue :=
| IdNumber (n : N)
| IdString (s : string)
| IdNull.

(** Interpolation inside a template literal. *)
Definition interpolate (v : IdValue) : string :=
  match v with
  | IdNumber n => pretty n
  | IdString s => s
  | IdNull => "null"
  end.

(** [el.getAttribute(name)] *)
Definition getAttribute (name : string) (attributes : gmap string string) : IdValue :=
  match attributes !! name with
  | Some s => IdString s
  | None => IdNull
  end.

(** How an attribute value appears in the rendered markup. *)
Definition rendered_attribute (v : AttrValue) : string :=
  match v with
  | AttrNumber n => pretty n
  | AttrString s => s
  end.

(** The callback; [server] is [typeof window === 'undefined']. It returns
    the id together with the instance as the callback leaves it. *)
Definition useId (server : bool) (instance : option ComponentInstance)
    : string * option ComponentInstance :=
  match instance with
  | None => (ATTR_KEY, None)
  | Some i =>
      if server then
        ((ATTR_KEY ++ "-" ++ interpolate (IdNumber (uid i)))%string,
         Some {| uid := uid i;
                 attrs := Some (<[ATTR_KEY := AttrNumber (uid i)]> (default ∅ (attrs i)));
                 vnode_el := vnode_el i |})
      else
        match vnode_el i with
        | Some (HostElement attributes) =>
            ((ATTR_KEY ++ "-" ++ interpolate (getAttribute ATTR_KEY attributes))%string,
             Some i)
        | _ =>
            ((ATTR_KEY ++ "-" ++ interpolate (IdNumber (uid i)))%string, Some i)
        end
  end.

End InstanceId.

(** A string that is empty or starts with [c]. *)
Definition starts_at (c : ascii) (s : string) : Prop :=
  s = "" ∨ ∃ rest, s = String c rest.

(** ** Reading rendered trees *)

Definition vnode_style (v : VNode) : list (string * CssValue) :=
  match v with
  | VElement _ _ st _ => st
  | _ => []
  end.

Definition vnode_name (v : VNode) : option string :=
  match v with
  | VComponent n _ _ _ => Some n
  | _ => None
  end.

Definition vnode_props (v : VNode) : list (string * PropValue) :=
  match v with
  | VComponent _ _ ps _ => ps
  | _ => []
  end.

Definition vnode_slots (v : VNode) : list (string * list VNode) :=
  match v with
  | VComponent _ _ _ sl => sl
  | _ => []
  end.


Definition prop_value (name : string) (v : VNode) : option PropValue :=
  snd <$> List.find (λ p, String.eqb name p.1) (vnode_props v).

Definition components_named (name : string) (vs : list VNode) : list VNode :=
  List.filter (λ v, bool_decide (vnode_name v = Some name)) vs.

(** An inline style that hides the element. *)
Definition display_none (st : list (string * CssValue)) : bool :=
  existsb (λ p, String.eqb p.1 "display" &&
                match p.2 with
                | CssKeyword k => String.eqb k "none"
                | CssPixels _ => false
                end) st.

(** The layout's editor region is present but hidden. *)
Definition editor_hidden (root : VNode) : bool :=
  existsb (λ v, display_none (vnode_style v))
    (children_with_class "references-editor" root).

(** The leading class of each direct child, top to bottom. *)
Definition region_classes (root : VNode) : list (option string) :=
  (λ v, head (vnode_classes v)) <$> vnode_children root.

(** The [Sidebar] components inside the navigation region. *)
Definition sidebar_of (root : VNode) : list VNode :=
  components_named "Sidebar"
    (RequestHistory.descend ["references-navigation"; "references-navigation-list"] root
       ≫= vnode_children).


Definition modal_of (root : VNode) : list VNode :=
  components_named "ApiClientModal" (vnode_children root).


(** What the footer extension point puts on the page: the content inside
    each footer region of the layout. *)
Definition footer_extension_point (root : VNode) : list (list VNode) :=
  vnode_children <$> children_with_class "references-footer" root.

(** Two sets of slots that differ at most in the footer slot. *)
Definition same_but_footer (slots slots' : Slots) : Prop :=
  ∀ name, name ≠ slot_footer → slots' name = slots name.

(** ** More sample data *)

Module Scenario.

(** An instance as the server sees it, and the same component on the
    client, created with another uid, whose element carries the attribute
    the server rendered. *)
Definition server_instance : InstanceId.ComponentInstance :=
  {| InstanceId.uid := 7%N;
     InstanceId.attrs := Some {[ "class" := InstanceId.AttrString "docs" ]};
     InstanceId.vnode_el := None |}.

Definition client_instance : InstanceId.ComponentInstance :=
  {| InstanceId.uid := 3%N;
     InstanceId.attrs := None;
     InstanceId.vnode_el :=
       Some (InstanceId.HostElement {[ "scalar-instance-id" := "7" ]}) |}.

(** A document without tags. *)
Definition untagged : ReferenceLayoutProps :=
  {| parsedSpec := {| tags := None; security := [] |};
     rawSpec := "openapi: 3.1.0";
     configuration := Sample.editable |}.

(** A client that opened a fragment naming no section. *)
Definition at_unknown_fragment : State :=
  set_hash "description/intro" Sample.at_fragment.

(** A client that already has the [store] section open. *)
Definition with_store_open : State :=
  set_collapsedSidebarItems {[ "tag/store" := true ]} Sample.at_top.

(** A server context that already holds state of another hook. *)
Definition on_busy_server : State :=
  set_ssrContext
    (Some {| scalarState := Some {[ "useGlobalStore" := SSROther "{}" ]} |})
    Sample.at_top.


(** A desktop-sized client of a read-only reference, and a caller that
    supplies no slot at all. *)
Definition on_desktop : State :=
  {| hash := "";
     collapsedSidebarItems := ∅;
     isSidebarOpen := false;
     breadcrumb := "";
     hideModels := false;
     elementHeight := CssKeyword "100dvh";
     viewportWidth := 1280%float;
     href := "/docs";
     tippy := None;
     downloadSpecBus := [];
     ssrContext := None |}.

Definition read_only : ReferenceLayoutProps :=
  {| parsedSpec := Sample.spec;
     rawSpec := "openapi: 3.1.0";
     configuration :=
       {| isEditable := None; showSidebar := Some true; layout := None;
          theme := None; proxy := None; config_hideModels := None |} |}.

Definition no_slots : Slots := λ _, None.

(** The footer a caller supplies, and a caller that supplies only it. *)
Definition footer_content (p : ReferenceSlotProps) : list VNode :=
  [VText ("footer of " ++ slot_breadcrumb p)].

Definition with_footer : Slots :=
  λ name,
    match name with
    | slot_footer => Some footer_content
    | _ => None
    end.

End Scenario.

(** * Properties *)

(** ** Truthiness, strings and URLs *)

Lemma truthy_string_true s : Js.truthy_string s = true ↔ s ≠ "".
Proof. destruct s; simpl; split; congruence. Qed.

Lemma truthy_string_false s : Js.truthy_string s = false ↔ s = "".
Proof. destruct s; simpl; split; congruence. Qed.

Lemma append_cons a s t : (String a s ++ t)%string = String a (s ++ t)%string.
Proof. reflexivity. Qed.

Lemma append_empty t : ("" ++ t)%string = t.
Proof. reflexivity. Qed.

Lemma prefix_empty s : String.prefix "" s = true.
Proof. by destruct s. Qed.

Lemma prefix_append needle rest : String.prefix needle (needle ++ rest)%string = true.
Proof.
  induction needle as [|a needle IH].
  - apply prefix_empty.
  - rewrite append_cons. simpl.
    destruct (Ascii.ascii_dec a a); [exact IH | congruence].
Qed.

Lemma includes_unfold needle haystack :
  Js.includes needle haystack =
  String.prefix needle haystack ||
  match haystack with
  | EmptyString => false
  | String _ rest => Js.includes needle rest
  end.
Proof. by destruct haystack. Qed.

Lemma includes_here needle rest : Js.includes needle (needle ++ rest)%string = true.
Proof. by rewrite includes_unfold, prefix_append. Qed.

Lemma includes_skip needle before haystack :
  Js.includes needle haystack = true →
  Js.includes needle (before ++ haystack)%string = true.
Proof.
  intros H. induction before as [|a before IH]; [exact H |].
  rewrite append_cons, includes_unfold, IH. apply orb_true_r.
Qed.

Lemma includes_empty_haystack needle :
  needle ≠ "" → Js.includes needle "" = false.
Proof. destruct needle; [congruence | reflexivity]. Qed.

Lemma free_of_empty c : free_of c "".
Proof. reflexivity. Qed.

Lemma free_of_cons c a s :
  free_of c (String a s) ↔ Ascii.eqb a c = false ∧ free_of c s.
Proof.
  unfold free_of; simpl. destruct (Ascii.eqb a c); split.
  - discriminate.
  - intros [? _]; discriminate.
  - auto.
  - intros [_ H]; exact H.
Qed.

Lemma free_of_before_same c s : free_of c (Url.before c s).
Proof.
  induction s as [|a s IH]; simpl; [reflexivity |].
  destruct (Ascii.eqb a c) eqn:E; [reflexivity |].
  apply free_of_cons; auto.
Qed.

Lemma free_of_before c d s : free_of c s → free_of c (Url.before d s).
Proof.
  induction s as [|a s IH]; simpl; [auto |].
  intros [Ha Hs]%free_of_cons.
  destruct (Ascii.eqb a d); [reflexivity |].
  apply free_of_cons; auto.
Qed.

Lemma free_of_from c d s : free_of c s → free_of c (Url.from d s).
Proof.
  induction s as [|a s IH]; simpl; [auto |].
  intros H. destruct (Ascii.eqb a d); [exact H |].
  apply free_of_cons in H as [_ Hs]. auto.
Qed.

Lemma free_of_drop_lone c d s : free_of c s → free_of c (Url.drop_lone d s).
Proof. unfold Url.drop_lone. destruct (String.eqb _ _); auto using free_of_empty. Qed.

Lemma free_of_append c s t : free_of c s → free_of c t → free_of c (s ++ t)%string.
Proof.
  induction s as [|a s IH]; [auto |].
  rewrite append_cons. intros [Ha Hs]%free_of_cons Ht. apply free_of_cons; auto.
Qed.

Lemma hash_of_fragment_free s : free_of "#" s → Url.hash s = "".
Proof. unfold Url.hash, free_of. intros ->. reflexivity. Qed.

(** The URL the scroll handler installs has no fragment. *)
Lemma pathname_search_no_fragment href :
  Url.hash (Url.pathname href ++ Url.search href)%string = "".
Proof.
  apply hash_of_fragment_free, free_of_append.
  - apply free_of_before, free_of_before_same.
  - apply free_of_drop_lone, free_of_from, free_of_before_same.
Qed.

(** ** Mount hook *)

Section mount_properties.

Import ReferenceLayout.

Variable getSectionId : string → option string.
Variable getTagId : Tag → string.
Variable props : ReferenceLayoutProps.

(** The hook touches the collapse-state map through [sectionId] only. *)
Lemma onMounted_collapsed st :
  collapsedSidebarItems (onMounted getSectionId getTagId props st) =
  match mountSectionId getSectionId getTagId props st with
  | Some s =>
      if Js.truthy_string s then <[s := true]> (collapsedSidebarItems st)
      else collapsedSidebarItems st
  | None => collapsedSidebarItems st
  end.
Proof.
  unfold onMounted, mountSectionId.
  destruct (Js.truthy_string (hash st)) eqn:Hh; simpl.
  - rewrite Hh. destruct (getSectionId (hash st)) as [s|]; [|done].
    by destruct (Js.truthy_string s).
  - rewrite Hh. destruct (firstTag props) as [t|]; [|done].
    by destruct (Js.truthy_string (getTagId t)).
Qed.

(** C1: when the URL fragment is non-empty and resolves to a section
    identifier, the collapse-state map right after the mount hook is the
    map before it with that one section marked expanded: the section reads
    [true], and every other section's entry is what it was. *)
Theorem mount_expands_fragment_section st sid :
  hash st ≠ "" →
  getSectionId (hash st) = Some sid →
  sid ≠ "" →
  collapsedSidebarItems (onMounted getSectionId getTagId props st)
    = <[sid := true]> (collapsedSidebarItems st)
  ∧ collapsedSidebarItems (onMounted getSectionId getTagId props st) !! sid
    = Some true
  ∧ ∀ other, other ≠ sid →
      collapsedSidebarItems (onMounted getSectionId getTagId props st) !! other
      = collapsedSidebarItems st !! other.
Proof.
  intros Hh%truthy_string_true Hs Hsid%truthy_string_true.
  rewrite onMounted_collapsed. unfold mountSectionId.
  rewrite Hh, Hs, Hsid. split_and!.
  - reflexivity.
  - apply lookup_insert_eq.
  - intros other Hne. by apply lookup_insert_ne.
Qed.

(** C2: when the URL fragment is empty and the document declares at least
    one tag, the entry of the first declared tag's section identifier is
    [true] after the mount hook. *)
Theorem mount_expands_first_tag st t rest :
  hash st = "" →
  tags (parsedSpec props) = Some (t :: rest) →
  getTagId t ≠ "" →
  collapsedSidebarItems (onMounted getSectionId getTagId props st) !! getTagId t
    = Some true.
Proof.
  intros Hh%truthy_string_false Ht Hid%truthy_string_true.
  rewrite onMounted_collapsed. unfold mountSectionId, firstTag.
  rewrite Hh, Ht. simpl. rewrite Hid. apply lookup_insert_eq.
Qed.

End mount_properties.

Lemma mount_expands_fragment_section_witness :
  hash Sample.at_fragment ≠ "" ∧
  Sample.getSectionId (hash Sample.at_fragment) = Some "tag/store" ∧
  "tag/store" ≠ "" ∧
  collapsedSidebarItems
    (ReferenceLayout.onMounted Sample.getSectionId Sample.getTagId
       Sample.props Sample.at_fragment) !! "tag/store" = Some true.
Proof.
  split_and!; [discriminate | reflexivity | discriminate |].
  apply (mount_expands_fragment_section Sample.getSectionId Sample.getTagId
           Sample.props Sample.at_fragment "tag/store");
    [discriminate | reflexivity | discriminate].
Defined.

Lemma mount_expands_first_tag_witness :
  hash Sample.at_top = "" ∧
  tags (parsedSpec Sample.props) = Some [Sample.pets; Sample.store] ∧
  Sample.getTagId Sample.pets ≠ "" ∧
  collapsedSidebarItems
    (ReferenceLayout.onMounted Sample.getSectionId Sample.getTagId
       Sample.props Sample.at_top) !! Sample.getTagId Sample.pets = Some true.
Proof.
  split_and!; [reflexivity | reflexivity | discriminate |].
  apply (mount_expands_first_tag Sample.getSectionId Sample.getTagId
           Sample.props Sample.at_top Sample.pets [Sample.store]);
    [reflexivity | reflexivity | discriminate].
Defined.

(** ** Scroll handler *)

Section scroll_properties.

Import ReferenceLayout.

Lemma debouncedScroll_near_top value st :
  PrimFloat.ltb (Js.nullish (target_scrollTop value) 0%float) 50 = true →
  debouncedScroll value st =
  set_hash "" (set_href (Url.pathname (href st) ++ Url.search (href st)) st).
Proof. unfold debouncedScroll. by intros ->. Qed.

Lemma debouncedScroll_far value st :
  PrimFloat.ltb (Js.nullish (target_scrollTop value) 0%float) 50 = false →
  debouncedScroll value st = st.
Proof. unfold debouncedScroll. by intros ->. Qed.

(** C3: for a scroll event that reaches the handler, an offset strictly
    under 50 clears the fragment, both the navigation hook's [hash] and the
    one in the address bar, which become the empty string; an offset of 200
    leaves the whole state, the fragment included, as it was. *)
Theorem scroll_clears_fragment_under_50 value st :
  (∀ offset,
     target_scrollTop value = Some offset →
     PrimFloat.ltb offset 50 = true →
     hash (debouncedScroll value st) = ""
     ∧ Url.hash (href (debouncedScroll value st)) = "")
  ∧ (target_scrollTop value = Some 200%float →
     debouncedScroll value st = st
     ∧ hash (debouncedScroll value st) = hash st
     ∧ href (debouncedScroll value st) = href st).
Proof.
  split.
  - intros offset Ht Hlt.
    rewrite debouncedScroll_near_top by (rewrite Ht; exact Hlt).
    split; [reflexivity | apply pathname_search_no_fragment].
  - intros Ht.
    rewrite debouncedScroll_far by (rewrite Ht; reflexivity). done.
Qed.

(** C10: an event whose target has no [scrollTop] is handled with offset 0:
    the handler does exactly what it does for a scroll to the very top, and
    the fragment is cleared. *)
Theorem scroll_without_offset_clears_fragment value st :
  target_scrollTop value = None →
  debouncedScroll value st
    = debouncedScroll {| target_scrollTop := Some 0%float |} st
  ∧ hash (debouncedScroll value st) = ""
  ∧ Url.hash (href (debouncedScroll value st)) = "".
Proof.
  intros Ht.
  rewrite !debouncedScroll_near_top by (rewrite ?Ht; reflexivity).
  split_and!; [reflexivity | reflexivity | apply pathname_search_no_fragment].
Qed.

End scroll_properties.

Lemma scroll_clears_fragment_under_50_witness :
  (PrimFloat.ltb 49.5%float 50 = true ∧
   hash (ReferenceLayout.debouncedScroll
           {| ReferenceLayout.target_scrollTop := Some 49.5%float |}
           Sample.at_fragment) = "")
  ∧ ReferenceLayout.debouncedScroll
      {| ReferenceLayout.target_scrollTop := Some 200%float |}
      Sample.at_fragment = Sample.at_fragment.
Proof.
  split; [split; [reflexivity |] |].
  - apply (proj1 (scroll_clears_fragment_under_50
                    {| ReferenceLayout.target_scrollTop := Some 49.5%float |}
                    Sample.at_fragment) 49.5%float);
      reflexivity.
  - apply (proj2 (scroll_clears_fragment_under_50
                    {| ReferenceLayout.target_scrollTop := Some 200%float |}
                    Sample.at_fragment)).
    reflexivity.
Defined.

Lemma scroll_without_offset_clears_fragment_witness :
  ReferenceLayout.target_scrollTop {| ReferenceLayout.target_scrollTop := None |}
    = None
  ∧ hash (ReferenceLayout.debouncedScroll
            {| ReferenceLayout.target_scrollTop := None |} Sample.at_fragment)
    = "".
Proof.
  split; [reflexivity |].
  apply (scroll_without_offset_clears_fragment
           {| ReferenceLayout.target_scrollTop := None |} Sample.at_fragment).
  reflexivity.
Defined.

(** ** Server prefetch hook and resize observer *)

Section server_properties.

Import ReferenceLayout.

Variable getSectionId : string → option string.
Variable getTagId : Tag → string.
Variable defaultStateFactory : gmap string SSRValue.
Variable props : ReferenceLayoutProps.

Lemma firstTag_head :
  firstTag props = head (default [] (tags (parsedSpec props))).
Proof. unfold firstTag, Js.first. by destruct (tags (parsedSpec props)). Qed.

(** The mount hook follows the specification's rule. *)
Lemma mountSectionId_spec st :
  mountSectionId getSectionId getTagId props st
  = spec_initial_section getSectionId getTagId props (hash st).
Proof.
  unfold mountSectionId, spec_initial_section. rewrite <- firstTag_head.
  destruct (hash st); simpl; [|done]. by destruct (firstTag props).
Qed.

Lemma onServerPrefetch_collapsed st :
  collapsedSidebarItems (onServerPrefetch getTagId defaultStateFactory props st)
  = match server_section getTagId props with
    | Some s => <[s := true]> (collapsedSidebarItems st)
    | None => collapsedSidebarItems st
    end.
Proof.
  unfold onServerPrefetch, server_section.
  destruct (firstTag props) as [t|]; simpl;
    by destruct (ssrContext st).
Qed.

Lemma onServerPrefetch_without_context st :
  ssrContext st = None →
  onServerPrefetch getTagId defaultStateFactory props st
  = match firstTag props with
    | Some t => Sidebar.setCollapsedSidebarItem (getTagId t) true st
    | None => st
    end.
Proof.
  intros Hctx. unfold onServerPrefetch.
  destruct (firstTag props) as [t|]; simpl; by rewrite Hctx.
Qed.

Lemma onServerPrefetch_handoff st ctx :
  ssrContext st = Some ctx →
  ssrContext (onServerPrefetch getTagId defaultStateFactory props st)
  = Some (handoff defaultStateFactory
            (collapsedSidebarItems
               (onServerPrefetch getTagId defaultStateFactory props st))
            ctx).
Proof.
  intros Hctx. unfold onServerPrefetch.
  destruct (firstTag props) as [t|]; simpl; by rewrite Hctx.
Qed.

(** C4, as the code has it: the server pass never looks at the fragment.
    It expands the first top-level tag's section, which is the section the
    specification's rule and the mount hook pick whenever the fragment is
    empty (the two collapse-state maps are then equal, provided the tag's
    identifier is a non-empty string); and when a server context is
    present, the resulting collapse-state map is what the hand-off
    structure holds under the sidebar's key. *)
Theorem server_prefetch_expands_first_tag st :
  let st' := onServerPrefetch getTagId defaultStateFactory props st in
  collapsedSidebarItems st'
    = match firstTag props with
      | Some t => <[getTagId t := true]> (collapsedSidebarItems st)
      | None => collapsedSidebarItems st
      end
  ∧ server_section getTagId props
    = spec_initial_section getSectionId getTagId props ""
  ∧ (hash st = "" →
     (∀ t, firstTag props = Some t → getTagId t ≠ "") →
     server_agrees_with_mount getSectionId getTagId defaultStateFactory props st)
  ∧ (∀ ctx, ssrContext st = Some ctx →
     ∃ ctx' scalar,
       ssrContext st' = Some ctx'
       ∧ scalarState ctx' = Some scalar
       ∧ scalar !! handoff_key = Some (SSRCollapsedItems (collapsedSidebarItems st'))).
Proof.
  simpl. split_and!.
  - rewrite onServerPrefetch_collapsed. unfold server_section.
    by destruct (firstTag props).
  - unfold server_section, spec_initial_section. simpl.
    by rewrite firstTag_head.
  - intros Hh Hid. unfold server_agrees_with_mount.
    rewrite onServerPrefetch_collapsed, onMounted_collapsed.
    unfold server_section, mountSectionId. rewrite Hh. simpl.
    destruct (firstTag props) as [t|] eqn:Ht; simpl; [|done].
    specialize (Hid t eq_refl). apply truthy_string_true in Hid.
    by rewrite Hid.
  - intros ctx Hctx. eexists _, _. split_and!.
    + by apply onServerPrefetch_handoff.
    + reflexivity.
    + apply lookup_insert_eq.
Qed.

(** C5, as the code has it: the resize observer callback has no guard, so
    an empty list of entries makes it throw a [TypeError], while a
    non-empty list sets the height from the first entry; the server
    prefetch hook skips the hand-off without failing when there is no
    server context: the context stays absent and only the first tag's
    expansion has happened. *)
Theorem defensive_branches st :
  resizeObserverCallback [] st
    = Js.Throw (Js.TypeError "Cannot read properties of undefined (reading 'contentRect')")
  ∧ (∀ e rest,
       resizeObserverCallback (e :: rest) st
       = Js.Ok (set_elementHeight (CssPixels (rect_height (contentRect e))) st))
  ∧ (ssrContext st = None →
     ssrContext (onServerPrefetch getTagId defaultStateFactory props st) = None
     ∧ onServerPrefetch getTagId defaultStateFactory props st
       = match firstTag props with
         | Some t => Sidebar.setCollapsedSidebarItem (getTagId t) true st
         | None => st
         end).
Proof.
  split_and!; [reflexivity | reflexivity |].
  intros Hctx. rewrite onServerPrefetch_without_context by done.
  split; [|done]. by destruct (firstTag props).
Qed.

End server_properties.

(** C4 as stated fails: with the fragment [tag/store] the mount hook opens
    [tag/store] and leaves [tag/pets] alone, while the server pass opens
    [tag/pets], whether it is run on that very state or, as a server
    would, on the state of the same page without the fragment; the section
    the server pass picks is not the one the specification's rule picks. *)
Lemma server_prefetch_ignores_fragment :
  ¬ server_agrees_with_mount Sample.getSectionId Sample.getTagId ∅
      Sample.props Sample.at_fragment
  ∧ collapsedSidebarItems
      (ReferenceLayout.onServerPrefetch Sample.getTagId ∅ Sample.props
         Sample.on_server)
    ≠ collapsedSidebarItems
        (ReferenceLayout.onMounted Sample.getSectionId Sample.getTagId
           Sample.props Sample.at_fragment)
  ∧ server_section Sample.getTagId Sample.props
    ≠ spec_initial_section Sample.getSectionId Sample.getTagId Sample.props
        (hash Sample.at_fragment).
Proof.
  split_and!.
  - unfold server_agrees_with_mount. intros H.
    apply (f_equal (λ m : gmap string bool, m !! "tag/pets")) in H.
    vm_compute in H. discriminate H.
  - intros H.
    apply (f_equal (λ m : gmap string bool, m !! "tag/pets")) in H.
    vm_compute in H. discriminate H.
  - vm_compute. discriminate.
Qed.

Lemma server_prefetch_expands_first_tag_witness :
  hash Sample.on_server = "" ∧
  (∀ t, ReferenceLayout.firstTag Sample.props = Some t → Sample.getTagId t ≠ "") ∧
  server_agrees_with_mount Sample.getSectionId Sample.getTagId ∅
    Sample.props Sample.on_server.
Proof.
  assert (∀ t, ReferenceLayout.firstTag Sample.props = Some t →
               Sample.getTagId t ≠ "") as Hid.
  { intros t [= <-]. discriminate. }
  split_and!; [reflexivity | exact Hid |].
  apply (proj1 (proj2 (proj2
    (server_prefetch_expands_first_tag Sample.getSectionId Sample.getTagId ∅
       Sample.props Sample.on_server))));
    [reflexivity | exact Hid].
Defined.

(** C5 as stated fails: on an empty list of entries the resize observer
    callback throws; it does not return, so it is not a no-op. *)
Lemma resize_callback_throws_on_no_entry :
  ReferenceLayout.resizeObserverCallback [] Sample.at_top
    = Js.Throw (Js.TypeError "Cannot read properties of undefined (reading 'contentRect')")
  ∧ ReferenceLayout.resizeObserverCallback [] Sample.at_top
    ≠ Js.Ok Sample.at_top.
Proof. split; [reflexivity | discriminate]. Qed.

Lemma defensive_branches_witness :
  ssrContext Sample.at_top = None ∧
  ssrContext (ReferenceLayout.onServerPrefetch Sample.getTagId ∅
                Sample.props Sample.at_top) = None.
Proof.
  split; [reflexivity |].
  apply (proj2 (proj2 (defensive_branches Sample.getTagId ∅ Sample.props
                         Sample.at_top))).
  reflexivity.
Defined.

(** ** Request history table *)

Section history_properties.

Import RequestHistory.

Lemma rendered_items_unfold store :
  rendered_items store = history_item <$> requestHistoryOrder store.
Proof.
  unfold rendered_items, template. cbn.
  rewrite !app_nil_r. reflexivity.
Qed.

Lemma history_item_key history : vnode_key (history_item history) = Some history.
Proof. reflexivity. Qed.


End history_properties.


(** ** Sidebar toggle *)

Section toggle_properties.

Import Sidebar.

Lemma isExpanded_insert key value items other :
  isExpanded (<[key := value]> items) other
  = if decide (key = other) then value else isExpanded items other.
Proof. unfold isExpanded. rewrite lookup_insert. by case_decide. Qed.

Lemma toggle_isExpanded key items :
  isExpanded (toggleCollapsedSidebarItem key items) key
  = negb (isExpanded items key).
Proof.
  unfold toggleCollapsedSidebarItem. rewrite isExpanded_insert.
  by rewrite decide_True.
Qed.

Lemma toggle_twice_entry key items :
  toggleCollapsedSidebarItem key (toggleCollapsedSidebarItem key items)
  = <[key := isExpanded items key]> items.
Proof.
  unfold toggleCollapsedSidebarItem at 1. rewrite toggle_isExpanded, negb_involutive.
  unfold toggleCollapsedSidebarItem. apply insert_insert_eq.
Qed.

(** With an entry for the section, the map itself comes back. *)
Lemma toggle_twice_present key items :
  is_Some (items !! key) →
  toggleCollapsedSidebarItem key (toggleCollapsedSidebarItem key items) = items.
Proof.
  intros [b Hb]. rewrite toggle_twice_entry. apply insert_id.
  unfold isExpanded. by rewrite Hb.
Qed.

(** C7, as the toggle behaves: for every section identifier and every
    collapse-state map, toggling the section twice gives back the original
    reading of every section, the toggled one included; the map after the
    two toggles is the original one with the toggled section's entry
    holding its original state, so it is the original map itself exactly
    when the section already had an entry. *)
Theorem toggle_twice_restores key items :
  (∀ section,
     isExpanded (toggleCollapsedSidebarItem key
                   (toggleCollapsedSidebarItem key items)) section
     = isExpanded items section)
  ∧ toggleCollapsedSidebarItem key (toggleCollapsedSidebarItem key items)
    = <[key := isExpanded items key]> items
  ∧ (toggleCollapsedSidebarItem key (toggleCollapsedSidebarItem key items)
       = items
     ↔ is_Some (items !! key)).
Proof.
  split_and!; [|apply toggle_twice_entry|].
  - intros section. rewrite toggle_twice_entry, isExpanded_insert.
    case_decide; by subst.
  - split; [|apply toggle_twice_present].
    rewrite toggle_twice_entry. intros Heq.
    rewrite <- Heq, lookup_insert_eq. by eexists.
Qed.

End toggle_properties.

(** C7 as stated fails: a section without an entry has one after two
    toggles, so the map is not the original one. *)
Lemma toggle_twice_adds_entry :
  Sidebar.toggleCollapsedSidebarItem "tag/pets"
    (Sidebar.toggleCollapsedSidebarItem "tag/pets" ∅)
  ≠ (∅ : gmap string bool)
  ∧ Sidebar.toggleCollapsedSidebarItem "tag/pets"
      (Sidebar.toggleCollapsedSidebarItem "tag/pets" ∅) !! "tag/pets"
    = Some false.
Proof.
  assert (Sidebar.toggleCollapsedSidebarItem "tag/pets"
            (Sidebar.toggleCollapsedSidebarItem "tag/pets" ∅) !! "tag/pets"
          = Some false) as Hentry.
  { rewrite toggle_twice_entry. apply lookup_insert_eq. }
  split; [|exact Hentry].
  intros Heq. rewrite Heq in Hentry. by rewrite lookup_empty in Hentry.
Qed.

Lemma toggle_twice_restores_witness :
  is_Some (({[ "tag/pets" := true ]} : gmap string bool) !! "tag/pets")
  ∧ Sidebar.toggleCollapsedSidebarItem "tag/pets"
      (Sidebar.toggleCollapsedSidebarItem "tag/pets" {[ "tag/pets" := true ]})
    = {[ "tag/pets" := true ]}.
Proof.
  assert (is_Some (({[ "tag/pets" := true ]} : gmap string bool) !! "tag/pets"))
    as Hentry.
  { exists true. apply lookup_singleton_eq. }
  split; [exact Hentry |].
  apply (proj2 (proj2 (toggle_twice_restores "tag/pets" {[ "tag/pets" := true ]}))).
  exact Hentry.
Defined.

(** ** Mounting the embedded client *)

Section mount_widget_properties.

Import ApiClientWeb.

Variable app_view : ClientConfiguration → list Dom.node.

Lemma innerHTML_empty el : Dom.childNodes el = [] → Dom.innerHTML el = "".
Proof. unfold Dom.innerHTML. by intros ->. Qed.

Lemma innerHTML_mounted el config :
  ∃ rest,
    Dom.innerHTML (createApiClientWeb app_view el config)
    = ("<div class=" ++ Dom.quote ++ (root_marker ++ rest))%string.
Proof.
  unfold Dom.innerHTML, createApiClientWeb, root_marker, Dom.quote.
  eexists. cbn. reflexivity.
Qed.

(** C8: for every empty container, the container's rendered output does
    not contain the root marker [scalar-app] before the mount and contains
    it after, whatever the client application renders inside its root and
    whatever the configuration. *)
Theorem mount_renders_root_marker el config :
  Dom.childNodes el = [] →
  Js.includes "scalar-app" (Dom.innerHTML el) = false
  ∧ Js.includes "scalar-app"
      (Dom.innerHTML (createApiClientWeb app_view el config)) = true.
Proof.
  intros Hempty. split.
  - by rewrite innerHTML_empty.
  - destruct (innerHTML_mounted el config) as [rest ->].
    do 2 apply includes_skip. apply includes_here.
Qed.

End mount_widget_properties.

Lemma mount_renders_root_marker_witness :
  Dom.childNodes (Dom.createElement "div") = [] ∧
  Js.includes "scalar-app"
    (Dom.innerHTML
       (ApiClientWeb.createApiClientWeb (λ _, [Dom.Text "Send"])
          (Dom.createElement "div")
          {| ApiClientWeb.proxyUrl := Some "https://proxy.scalar.com" |}))
  = true.
Proof.
  split; [reflexivity |].
  apply (mount_renders_root_marker (λ _, [Dom.Text "Send"])
           (Dom.createElement "div")
           {| ApiClientWeb.proxyUrl := Some "https://proxy.scalar.com" |}).
  reflexivity.
Defined.

(** ** Layout template *)

Section template_properties.

Import ReferenceLayout.

Variable props : ReferenceLayoutProps.
Variable slots : Slots.
Variable attrs_class : list string.
Variable reset scrollbars : string.
Variable st : State.

Local Abbreviation root :=
  (document_element props slots attrs_class reset scrollbars st).

Lemma showRenderedContent_iff :
  showRenderedContent props st = true ↔
  PrimFloat.leb 1150 (viewportWidth st) = true
  ∨ Js.truthy_flag (isEditable (configuration props)) = false.
Proof.
  unfold showRenderedContent, isLargeScreen.
  rewrite orb_true_iff, negb_true_iff. reflexivity.
Qed.

Lemma rendered_region_shown :
  renders_region "references-rendered" root = showRenderedContent props st.
Proof.
  unfold root, renders_region, document_element; simpl.
  destruct (Js.truthy_flag (showSidebar (configuration props)));
    destruct (showRenderedContent props st);
    destruct (slot_supplied slots slot_footer); reflexivity.
Qed.

Lemma footer_region_shown :
  renders_region "references-footer" root
  = showRenderedContent props st && slot_supplied slots slot_footer.
Proof.
  unfold root, renders_region, document_element; simpl.
  destruct (Js.truthy_flag (showSidebar (configuration props)));
    destruct (showRenderedContent props st);
    destruct (slot_supplied slots slot_footer); reflexivity.
Qed.

Lemma footer_extension_point_shown :
  footer_extension_point root =
  if showRenderedContent props st
  then match slots slot_footer with
       | Some f => [f (referenceSlotProps props st)]
       | None => []
       end
  else [].
Proof.
  unfold footer_extension_point, children_with_class, document_element,
    slot_supplied, footer_region, render_slot; simpl.
  destruct (Js.truthy_flag (showSidebar (configuration props)));
    destruct (showRenderedContent props st);
    destruct (slots slot_footer); reflexivity.
Qed.

Lemma render_slot_same_but_footer slots' name p :
  same_but_footer slots slots' → name ≠ slot_footer →
  render_slot slots' name p = render_slot slots name p.
Proof. intros Hsame Hname. unfold render_slot. by rewrite Hsame. Qed.

(** C9, as the template has it: the rendered-content region is in the
    layout exactly when the viewport is at least 1150px wide or the
    configuration is not editable. The footer extension point needs a
    footer slot on top of that: a supplied footer slot is rendered, applied
    to the shared slot props inside the footer region, exactly under the
    same condition, and without a footer slot there is no footer region
    at all. On a narrower screen with [isEditable] set neither region is
    there and the supplied footer slot is not rendered: the layout is the
    same whatever the footer slot is. *)
Theorem rendered_content_gate :
  (renders_region "references-rendered" root = true ↔
     PrimFloat.leb 1150 (viewportWidth st) = true
     ∨ Js.truthy_flag (isEditable (configuration props)) = false)
  ∧ (∀ footer, slots slot_footer = Some footer →
       (footer_extension_point root = [footer (referenceSlotProps props st)] ↔
          PrimFloat.leb 1150 (viewportWidth st) = true
          ∨ Js.truthy_flag (isEditable (configuration props)) = false)
       ∧ (renders_region "references-footer" root = true ↔
            PrimFloat.leb 1150 (viewportWidth st) = true
            ∨ Js.truthy_flag (isEditable (configuration props)) = false))
  ∧ (slots slot_footer = None →
     footer_extension_point root = []
     ∧ renders_region "references-footer" root = false)
  ∧ (PrimFloat.leb 1150 (viewportWidth st) = false →
     isEditable (configuration props) = Some true →
     renders_region "references-rendered" root = false
     ∧ renders_region "references-footer" root = false
     ∧ footer_extension_point root = []
     ∧ ∀ slots', same_but_footer slots slots' →
         document_element props slots' attrs_class reset scrollbars st = root).
Proof.
  rewrite rendered_region_shown, footer_region_shown, footer_extension_point_shown.
  rewrite <- showRenderedContent_iff. split_and!.
  - done.
  - intros footer Hfooter. unfold slot_supplied. rewrite Hfooter.
    rewrite <- !showRenderedContent_iff.
    destruct (showRenderedContent props st); split; split; done.
  - intros Hnone. unfold slot_supplied. rewrite Hnone.
    by destruct (showRenderedContent props st).
  - intros Hsmall Hedit.
    assert (showRenderedContent props st = false) as Hhide.
    { unfold showRenderedContent, isLargeScreen. by rewrite Hsmall, Hedit. }
    rewrite Hhide. split_and!; [done | done | done |].
    intros slots' Hsame. unfold document_element. rewrite Hhide.
    unfold header_region, navigation_region, editor_region, api_client_modal.
    cbv zeta.
    rewrite !(render_slot_same_but_footer slots' _ _ Hsame) by discriminate.
    reflexivity.
Qed.

End template_properties.

(** C9 as stated fails for the footer: on a desktop-sized screen with a
    read-only configuration the rendered-content region is there, but a
    caller that supplies no footer slot gets no footer region. *)
Lemma footer_needs_a_slot :
  (PrimFloat.leb 1150 (viewportWidth Scenario.on_desktop) = true
   ∨ Js.truthy_flag (isEditable (configuration Scenario.read_only)) = false)
  ∧ renders_region "references-rendered"
      (ReferenceLayout.document_element Scenario.read_only Scenario.no_slots []
         "reset" "scrollbars" Scenario.on_desktop) = true
  ∧ renders_region "references-footer"
      (ReferenceLayout.document_element Scenario.read_only Scenario.no_slots []
         "reset" "scrollbars" Scenario.on_desktop) = false
  ∧ footer_extension_point
      (ReferenceLayout.document_element Scenario.read_only Scenario.no_slots []
         "reset" "scrollbars" Scenario.on_desktop) = [].
Proof. split_and!; [by left | reflexivity | reflexivity | reflexivity]. Qed.

Lemma rendered_content_gate_witness :
  (Scenario.with_footer slot_footer = Some Scenario.footer_content
   ∧ (PrimFloat.leb 1150 (viewportWidth Scenario.on_desktop) = true
      ∨ Js.truthy_flag (isEditable (configuration Scenario.read_only)) = false)
   ∧ footer_extension_point
       (ReferenceLayout.document_element Scenario.read_only Scenario.with_footer
          [] "reset" "scrollbars" Scenario.on_desktop)
     = [Scenario.footer_content
          (ReferenceLayout.referenceSlotProps Scenario.read_only
             Scenario.on_desktop)])
  ∧ (PrimFloat.leb 1150 (viewportWidth Sample.at_top) = false
     ∧ isEditable (configuration Sample.props) = Some true
     ∧ same_but_footer Scenario.with_footer Scenario.no_slots
     ∧ ReferenceLayout.document_element Sample.props Scenario.no_slots []
         "reset" "scrollbars" Sample.at_top
       = ReferenceLayout.document_element Sample.props Scenario.with_footer []
           "reset" "scrollbars" Sample.at_top).
Proof.
  assert (same_but_footer Scenario.with_footer Scenario.no_slots) as Hsame.
  { intros name Hname. by destruct name. }
  split.
  - split; [reflexivity | split; [by left |]].
    apply (proj2 (proj1 (proj1 (proj2
             (rendered_content_gate Scenario.read_only Scenario.with_footer []
                "reset" "scrollbars" Scenario.on_desktop))
             Scenario.footer_content eq_refl))).
    by left.
  - split; [reflexivity | split; [reflexivity | split; [exact Hsame |]]].
    apply (proj2 (proj2 (proj2
             (rendered_content_gate Sample.props Scenario.with_footer []
                "reset" "scrollbars" Sample.at_top)))
             eq_refl eq_refl).
    exact Hsame.
Defined.

(** * Further properties of the layout's script and templates *)

(** ** The address bar accessors *)

Lemma append_empty_r s : (s ++ "")%string = s.
Proof.
  induction s as [|a s IH]; [reflexivity |].
  by rewrite append_cons, IH.
Qed.

Lemma before_of_free c s : free_of c s → Url.before c s = s.
Proof.
  induction s as [|a s IH]; [reflexivity |].
  intros [Ha Hs]%free_of_cons. simpl. rewrite Ha. by rewrite IH.
Qed.

Lemma from_starts_at c s : starts_at c (Url.from c s).
Proof.
  induction s as [|a s IH]; simpl; [by left |].
  destruct (Ascii.eqb a c) eqn:E; [|exact IH].
  apply Ascii.eqb_eq in E as ->. right. by eexists.
Qed.

Lemma drop_lone_starts_at c s : starts_at c s → starts_at c (Url.drop_lone c s).
Proof. unfold Url.drop_lone. destruct (String.eqb _ _); [by left | done]. Qed.

Lemma drop_lone_idempotent c s :
  Url.drop_lone c (Url.drop_lone c s) = Url.drop_lone c s.
Proof.
  unfold Url.drop_lone. destruct (String.eqb s _) eqn:E; [reflexivity |].
  by rewrite E.
Qed.

Lemma before_append_delimited c s t :
  starts_at c t → Url.before c (Url.before c s ++ t) = Url.before c s.
Proof.
  intros Ht. induction s as [|a s IH]; simpl.
  - rewrite append_empty. destruct Ht as [-> | [rest ->]]; [reflexivity |].
    simpl. by rewrite Ascii.eqb_refl.
  - destruct (Ascii.eqb a c) eqn:E.
    + rewrite append_empty. destruct Ht as [-> | [rest ->]]; [reflexivity |].
      simpl. by rewrite Ascii.eqb_refl.
    + rewrite append_cons. simpl. by rewrite E, IH.
Qed.

Lemma from_append_delimited c s t :
  starts_at c t → Url.from c (Url.before c s ++ t) = t.
Proof.
  intros Ht.
  assert (Url.from c t = t) as Hfrom.
  { destruct Ht as [-> | [rest ->]]; [reflexivity |].
    simpl. by rewrite Ascii.eqb_refl. }
  induction s as [|a s IH]; simpl.
  - by rewrite append_empty.
  - destruct (Ascii.eqb a c) eqn:E.
    + by rewrite append_empty.
    + rewrite append_cons. simpl. by rewrite E, IH.
Qed.

Lemma pathname_search_fragment_free href :
  free_of "#" (Url.pathname href ++ Url.search href).
Proof.
  apply free_of_append.
  - apply free_of_before, free_of_before_same.
  - apply free_of_drop_lone, free_of_from, free_of_before_same.
Qed.

(** Dropping the fragment keeps the path and the query. *)
Lemma pathname_of_cleared href :
  Url.pathname (Url.pathname href ++ Url.search href) = Url.pathname href.
Proof.
  unfold Url.pathname at 1.
  rewrite (before_of_free "#") by apply pathname_search_fragment_free.
  unfold Url.pathname, Url.search.
  apply before_append_delimited, drop_lone_starts_at, from_starts_at.
Qed.

Lemma search_of_cleared href :
  Url.search (Url.pathname href ++ Url.search href) = Url.search href.
Proof.
  unfold Url.search at 1.
  rewrite (before_of_free "#") by apply pathname_search_fragment_free.
  unfold Url.pathname, Url.search.
  rewrite from_append_delimited
    by apply drop_lone_starts_at, from_starts_at.
  apply drop_lone_idempotent.
Qed.

(** ** Scroll handler, continued *)

Section scroll_frame.

Import ReferenceLayout.

(** X1: whatever the scroll event, the handler leaves the path and the
    query string of the address bar as they were, and touches nothing of
    the component's state besides the fragment: the collapse-state map,
    the measured height, the download listeners and the server context
    are unchanged. *)
Theorem scroll_keeps_path_and_query value st :
  Url.pathname (href (debouncedScroll value st)) = Url.pathname (href st)
  ∧ Url.search (href (debouncedScroll value st)) = Url.search (href st)
  ∧ collapsedSidebarItems (debouncedScroll value st) = collapsedSidebarItems st
  ∧ elementHeight (debouncedScroll value st) = elementHeight st
  ∧ downloadSpecBus (debouncedScroll value st) = downloadSpecBus st
  ∧ ssrContext (debouncedScroll value st) = ssrContext st.
Proof.
  unfold debouncedScroll.
  destruct (PrimFloat.ltb _ _); simpl; [|done].
  split_and!; try reflexivity.
  - apply pathname_of_cleared.
  - apply search_of_cleared.
Qed.

Lemma debouncedScroll_cleared_fixed value st :
  hash st = "" →
  (Url.pathname (href st) ++ Url.search (href st))%string = href st →
  debouncedScroll value st = st.
Proof.
  intros Hh Hps. unfold debouncedScroll, history_replaceState.
  destruct (PrimFloat.ltb _ _); [|done].
  rewrite Hps. destruct st; simpl in *. by subst.
Qed.

(** X2: the handler is idempotent, and once an event has cleared the
    fragment every later event, whatever its offset, leaves the state as
    it is: the URL is rewritten to the same path and query. *)
Theorem scroll_settles value st :
  debouncedScroll value (debouncedScroll value st) = debouncedScroll value st
  ∧ ∀ later,
      debouncedScroll later
        (debouncedScroll {| target_scrollTop := Some 0%float |} st)
      = debouncedScroll {| target_scrollTop := Some 0%float |} st.
Proof.
  assert (∀ later,
    debouncedScroll later
      (set_hash "" (set_href (Url.pathname (href st) ++ Url.search (href st)) st))
    = set_hash "" (set_href (Url.pathname (href st) ++ Url.search (href st)) st))
    as Hfix.
  { intros later. apply debouncedScroll_cleared_fixed; simpl.
    - reflexivity.
    - by rewrite pathname_of_cleared, search_of_cleared. }
  split.
  - unfold debouncedScroll at 2 3, history_replaceState.
    destruct (PrimFloat.ltb _ _) eqn:E; [apply Hfix |].
    unfold debouncedScroll. by rewrite E.
  - intros later.
    rewrite (debouncedScroll_near_top {| target_scrollTop := Some 0%float |})
      by reflexivity.
    apply Hfix.
Qed.

End scroll_frame.

(** ** Mount hook, continued *)

Section mount_frame.

Import ReferenceLayout.

Variable getSectionId : string → option string.
Variable getTagId : Tag → string.
Variable props : ReferenceLayoutProps.

Lemma onMounted_hash st : hash (onMounted getSectionId getTagId props st) = hash st.
Proof.
  unfold onMounted.
  destruct (Js.truthy_string (hash st)) eqn:Hh; simpl;
    destruct (mountSectionId _ _ _ _) as [s|]; simpl;
    try destruct (Js.truthy_string s); reflexivity.
Qed.

Lemma onMounted_bus st :
  downloadSpecBus (onMounted getSectionId getTagId props st)
  = downloadSpecBus st ++ [rawSpec props].
Proof.
  unfold onMounted.
  destruct (Js.truthy_string (hash st)) eqn:Hh; simpl;
    destruct (mountSectionId _ _ _ _) as [s|]; simpl;
    try destruct (Js.truthy_string s); reflexivity.
Qed.

Lemma onMounted_tippy st :
  tippy (onMounted getSectionId getTagId props st) =
  if Js.truthy_string (hash st) then tippy st
  else (λ _, {| scroll_top := 0%float; scroll_left := 0%float |}) <$> tippy st.
Proof.
  unfold onMounted.
  destruct (Js.truthy_string (hash st)) eqn:Hh; simpl;
    destruct (mountSectionId _ _ _ _) as [s|]; simpl;
    try destruct (Js.truthy_string s); reflexivity.
Qed.

Lemma mountSectionId_hash st st' :
  hash st' = hash st →
  mountSectionId getSectionId getTagId props st'
  = mountSectionId getSectionId getTagId props st.
Proof. unfold mountSectionId. by intros ->. Qed.

(** X3: the mount hook subscribes to the download bus exactly once, with
    the raw document it was given, whatever the fragment and the tags; a
    second mount therefore leaves two listeners, while the collapse-state
    map after two mounts is the map after one. *)
Theorem mount_subscribes_once st :
  downloadSpecBus (onMounted getSectionId getTagId props st) = downloadSpecBus st ++ [rawSpec props]
  ∧ downloadSpecBus
      (onMounted getSectionId getTagId props (onMounted getSectionId getTagId props st))
    = downloadSpecBus st ++ [rawSpec props; rawSpec props]
  ∧ collapsedSidebarItems
      (onMounted getSectionId getTagId props (onMounted getSectionId getTagId props st))
    = collapsedSidebarItems (onMounted getSectionId getTagId props st).
Proof.
  split_and!.
  - apply onMounted_bus.
  - rewrite !onMounted_bus, <- app_assoc. reflexivity.
  - rewrite (onMounted_collapsed _ _ _ (onMounted getSectionId getTagId props st)).
    rewrite (mountSectionId_hash st (onMounted getSectionId getTagId props st))
      by apply onMounted_hash.
    rewrite onMounted_collapsed.
    destruct (mountSectionId _ _ _ st) as [s|]; [|done].
    destruct (Js.truthy_string s); [|done].
    apply insert_insert_eq.
Qed.

(** X4: the scroll reset of the mount hook. Without a fragment the
    [#tippy] container, when the page has one, is scrolled to the top left
    corner, and when the page has none nothing happens; with a fragment
    the container keeps its position. *)
Theorem mount_scroll_reset st :
  (hash st = "" →
   ∀ position, tippy st = Some position →
     tippy (onMounted getSectionId getTagId props st)
     = Some {| scroll_top := 0%float; scroll_left := 0%float |})
  ∧ (tippy st = None → tippy (onMounted getSectionId getTagId props st) = None)
  ∧ (hash st ≠ "" → tippy (onMounted getSectionId getTagId props st) = tippy st).
Proof.
  rewrite onMounted_tippy. split_and!.
  - intros Hh%truthy_string_false position Hp. by rewrite Hh, Hp.
  - intros Hp. rewrite Hp. by destruct (Js.truthy_string (hash st)).
  - intros Hh%truthy_string_true. by rewrite Hh.
Qed.

(** X5: when there is nothing to expand the mount hook leaves the
    collapse-state map alone. A fragment that resolves to no section
    ([null] or the empty string) does not fall back to the first tag, even
    if the document has tags; and without a fragment a document without
    tags (absent or empty list) expands nothing. *)
Theorem mount_nothing_to_expand st :
  (hash st ≠ "" →
   Js.truthy_nullable (getSectionId (hash st)) = false →
   collapsedSidebarItems (onMounted getSectionId getTagId props st) = collapsedSidebarItems st)
  ∧ (hash st = "" →
     default [] (tags (parsedSpec props)) = [] →
     collapsedSidebarItems (onMounted getSectionId getTagId props st) = collapsedSidebarItems st).
Proof.
  rewrite onMounted_collapsed. unfold mountSectionId. split.
  - intros Hh%truthy_string_true Hs. rewrite Hh.
    destruct (getSectionId (hash st)) as [s|]; [|done].
    simpl in Hs. by rewrite Hs.
  - intros Hh%truthy_string_false Ht. rewrite Hh, firstTag_head, Ht. done.
Qed.

(** X6: the mount hook never closes a section and changes at most one
    entry: a section that was expanded is still expanded, and any two
    sections whose entries both changed are the same section. *)
Theorem mount_only_opens st :
  (∀ section,
     collapsedSidebarItems st !! section = Some true →
     collapsedSidebarItems (onMounted getSectionId getTagId props st) !! section = Some true)
  ∧ (∀ a b,
       collapsedSidebarItems (onMounted getSectionId getTagId props st) !! a
         ≠ collapsedSidebarItems st !! a →
       collapsedSidebarItems (onMounted getSectionId getTagId props st) !! b
         ≠ collapsedSidebarItems st !! b →
       a = b).
Proof.
  rewrite onMounted_collapsed.
  destruct (mountSectionId _ _ _ st) as [s|]; [|done].
  destruct (Js.truthy_string s); [|done].
  split.
  - intros section Hopen. destruct (decide (s = section)) as [->|Hne].
    + apply lookup_insert_eq.
    + by rewrite lookup_insert_ne.
  - intros a b Ha Hb.
    destruct (decide (s = a)) as [<-|Hna]; [|by rewrite lookup_insert_ne in Ha].
    destruct (decide (s = b)) as [<-|Hnb]; [done|by rewrite lookup_insert_ne in Hb].
Qed.

(** X7: besides the collapse-state map, the download bus and the scroll
    position of [#tippy], the mount hook changes nothing: the fragment,
    the address bar, the measured height and the server context are as
    before. In particular it never clears or rewrites the fragment it
    reads. *)
Theorem mount_keeps_fragment st :
  hash (onMounted getSectionId getTagId props st) = hash st
  ∧ href (onMounted getSectionId getTagId props st) = href st
  ∧ elementHeight (onMounted getSectionId getTagId props st) = elementHeight st
  ∧ ssrContext (onMounted getSectionId getTagId props st) = ssrContext st.
Proof.
  unfold onMounted.
  destruct (Js.truthy_string (hash st)) eqn:Hh; simpl;
    destruct (mountSectionId _ _ _ _) as [s|]; simpl;
    try destruct (Js.truthy_string s); done.
Qed.

End mount_frame.

Lemma mount_scroll_reset_witness :
  (hash Sample.at_top = "" ∧
   tippy Sample.at_top
   = Some {| scroll_top := 120%float; scroll_left := 0%float |} ∧
   tippy (ReferenceLayout.onMounted Sample.getSectionId Sample.getTagId
            Sample.props Sample.at_top)
   = Some {| scroll_top := 0%float; scroll_left := 0%float |})
  ∧ (hash Sample.at_fragment ≠ "" ∧
     tippy (ReferenceLayout.onMounted Sample.getSectionId Sample.getTagId
              Sample.props Sample.at_fragment)
     = tippy Sample.at_fragment).
Proof.
  split; [split; [reflexivity | split; [reflexivity |]] | split; [discriminate |]].
  - apply (proj1 (mount_scroll_reset Sample.getSectionId Sample.getTagId
                    Sample.props Sample.at_top)
             eq_refl {| scroll_top := 120%float; scroll_left := 0%float |}).
    reflexivity.
  - apply (proj2 (proj2 (mount_scroll_reset Sample.getSectionId Sample.getTagId
                           Sample.props Sample.at_fragment))).
    discriminate.
Defined.

Lemma mount_nothing_to_expand_witness :
  (hash Scenario.at_unknown_fragment ≠ "" ∧
   Js.truthy_nullable (Sample.getSectionId (hash Scenario.at_unknown_fragment))
   = false ∧
   collapsedSidebarItems
     (ReferenceLayout.onMounted Sample.getSectionId Sample.getTagId
        Sample.props Scenario.at_unknown_fragment)
   = collapsedSidebarItems Scenario.at_unknown_fragment)
  ∧ (hash Sample.at_top = "" ∧
     default [] (tags (parsedSpec Scenario.untagged)) = [] ∧
     collapsedSidebarItems
       (ReferenceLayout.onMounted Sample.getSectionId Sample.getTagId
          Scenario.untagged Sample.at_top)
     = collapsedSidebarItems Sample.at_top).
Proof.
  split; [split; [discriminate | split; [reflexivity |]]
         | split; [reflexivity | split; [reflexivity |]]].
  - apply (proj1 (mount_nothing_to_expand Sample.getSectionId Sample.getTagId
                    Sample.props Scenario.at_unknown_fragment));
      [discriminate | reflexivity].
  - apply (proj2 (mount_nothing_to_expand Sample.getSectionId Sample.getTagId
                    Scenario.untagged Sample.at_top));
      reflexivity.
Defined.

Lemma mount_only_opens_witness :
  collapsedSidebarItems Scenario.with_store_open !! "tag/store" = Some true
  ∧ collapsedSidebarItems
      (ReferenceLayout.onMounted Sample.getSectionId Sample.getTagId
         Sample.props Scenario.with_store_open) !! "tag/store" = Some true.
Proof.
  split; [reflexivity |].
  apply (proj1 (mount_only_opens Sample.getSectionId Sample.getTagId
                  Sample.props Scenario.with_store_open)).
  reflexivity.
Defined.

(** ** Server prefetch hook, continued *)

Section prefetch_more.

Import ReferenceLayout.

Variable getSectionId : string → option string.
Variable getTagId : Tag → string.
Variable defaultStateFactory : gmap string SSRValue.
Variable props : ReferenceLayoutProps.

Lemma set_ssrContext_same st : set_ssrContext (ssrContext st) st = st.
Proof. by destruct st. Qed.

Lemma handoff_twice items ctx :
  handoff defaultStateFactory items (handoff defaultStateFactory items ctx)
  = handoff defaultStateFactory items ctx.
Proof. unfold handoff; simpl. by rewrite insert_insert_eq. Qed.

(** X8: the hand-off keeps what other hooks stored. With a server context,
    every entry of the hand-off structure other than the sidebar's key is
    after the hook what it was before, and when the context had no state
    yet the entries are those of the default state. *)
Theorem prefetch_keeps_other_entries st ctx key :
  ssrContext st = Some ctx →
  key ≠ handoff_key →
  ∃ ctx' scalar,
    ssrContext (onServerPrefetch getTagId defaultStateFactory props st) = Some ctx'
    ∧ scalarState ctx' = Some scalar
    ∧ scalar !! key = default defaultStateFactory (scalarState ctx) !! key.
Proof.
  intros Hctx Hkey. eexists _, _. split_and!.
  - by apply onServerPrefetch_handoff.
  - reflexivity.
  - by rewrite lookup_insert_ne.
Qed.

(** X9: the server prefetch hook is idempotent: a second run changes
    neither the collapse-state map nor the hand-off structure. *)
Theorem prefetch_idempotent st :
  onServerPrefetch getTagId defaultStateFactory props
    (onServerPrefetch getTagId defaultStateFactory props st)
  = onServerPrefetch getTagId defaultStateFactory props st.
Proof.
  unfold onServerPrefetch, Sidebar.setCollapsedSidebarItem.
  destruct st as [h items open crumb models height width url tip bus [ctx|]];
    destruct (firstTag props) as [t|]; simpl;
    unfold set_ssrContext, set_collapsedSidebarItems; simpl;
    rewrite ?insert_insert_eq, ?handoff_twice; reflexivity.
Qed.

(** X10: hydration does not move the sidebar. A client that starts from
    the collapse-state map the server pass produced and has no fragment
    gets the same map back from the mount hook; no hypothesis on the tag's
    identifier is needed. *)
Theorem mount_after_prefetch_is_stable server client :
  collapsedSidebarItems client
    = collapsedSidebarItems (onServerPrefetch getTagId defaultStateFactory props server) →
  hash client = "" →
  collapsedSidebarItems (onMounted getSectionId getTagId props client)
  = collapsedSidebarItems client.
Proof.
  intros Hmap Hh%truthy_string_false.
  rewrite onMounted_collapsed. unfold mountSectionId. rewrite Hh.
  rewrite Hmap, onServerPrefetch_collapsed. unfold server_section.
  destruct (firstTag props) as [t|]; simpl; [|done].
  destruct (Js.truthy_string (getTagId t)); [|done].
  apply insert_insert_eq.
Qed.

(** X11: the server prefetch hook never closes a section, never touches
    the fragment or the address bar, and creates no server context where
    there is none. *)
Theorem prefetch_only_opens st :
  (∀ section,
     collapsedSidebarItems st !! section = Some true →
     collapsedSidebarItems (onServerPrefetch getTagId defaultStateFactory props st) !! section
     = Some true)
  ∧ hash (onServerPrefetch getTagId defaultStateFactory props st) = hash st
  ∧ href (onServerPrefetch getTagId defaultStateFactory props st) = href st
  ∧ (is_Some (ssrContext (onServerPrefetch getTagId defaultStateFactory props st))
     ↔ is_Some (ssrContext st)).
Proof.
  split_and!.
  - rewrite onServerPrefetch_collapsed.
    destruct (server_section getTagId props) as [s|]; [|done].
    intros section Hopen. destruct (decide (s = section)) as [->|Hne].
    + apply lookup_insert_eq.
    + by rewrite lookup_insert_ne.
  - unfold onServerPrefetch.
    destruct (firstTag props); simpl; by destruct (ssrContext st).
  - unfold onServerPrefetch.
    destruct (firstTag props); simpl; by destruct (ssrContext st).
  - unfold onServerPrefetch.
    destruct (firstTag props); simpl;
      destruct (ssrContext st) eqn:Hctx; simpl; rewrite ?Hctx;
      split; intros [? ?]; by eauto.
Qed.

End prefetch_more.

Lemma prefetch_keeps_other_entries_witness :
  ssrContext Scenario.on_busy_server
  = Some {| scalarState := Some {[ "useGlobalStore" := SSROther "{}" ]} |}
  ∧ "useGlobalStore" ≠ ReferenceLayout.handoff_key
  ∧ ∃ ctx' scalar,
      ssrContext (ReferenceLayout.onServerPrefetch Sample.getTagId ∅
                    Sample.props Scenario.on_busy_server) = Some ctx'
      ∧ scalarState ctx' = Some scalar
      ∧ scalar !! "useGlobalStore"
        = default (∅ : gmap string SSRValue)
            (Some {[ "useGlobalStore" := SSROther "{}" ]}) !! "useGlobalStore".
Proof.
  split; [reflexivity | split; [discriminate |]].
  apply (prefetch_keeps_other_entries Sample.getTagId ∅ Sample.props
           Scenario.on_busy_server
           {| scalarState := Some {[ "useGlobalStore" := SSROther "{}" ]} |}
           "useGlobalStore");
    [reflexivity | discriminate].
Defined.

Lemma mount_after_prefetch_is_stable_witness :
  collapsedSidebarItems
    (set_collapsedSidebarItems {[ "tag/pets" := true ]} Sample.at_top)
  = collapsedSidebarItems
      (ReferenceLayout.onServerPrefetch Sample.getTagId ∅ Sample.props
         Sample.on_server)
  ∧ hash (set_collapsedSidebarItems {[ "tag/pets" := true ]} Sample.at_top) = ""
  ∧ collapsedSidebarItems
      (ReferenceLayout.onMounted Sample.getSectionId Sample.getTagId Sample.props
         (set_collapsedSidebarItems {[ "tag/pets" := true ]} Sample.at_top))
    = collapsedSidebarItems
        (set_collapsedSidebarItems {[ "tag/pets" := true ]} Sample.at_top).
Proof.
  assert (collapsedSidebarItems
            (set_collapsedSidebarItems {[ "tag/pets" := true ]} Sample.at_top)
          = collapsedSidebarItems
              (ReferenceLayout.onServerPrefetch Sample.getTagId ∅ Sample.props
                 Sample.on_server)) as Hmap.
  { reflexivity. }
  split; [exact Hmap | split; [reflexivity |]].
  apply (mount_after_prefetch_is_stable Sample.getSectionId Sample.getTagId ∅
           Sample.props Sample.on_server
           (set_collapsedSidebarItems {[ "tag/pets" := true ]} Sample.at_top));
    [exact Hmap | reflexivity].
Defined.

Lemma prefetch_only_opens_witness :
  collapsedSidebarItems Scenario.with_store_open !! "tag/store" = Some true
  ∧ collapsedSidebarItems
      (ReferenceLayout.onServerPrefetch Sample.getTagId ∅ Sample.props
         Scenario.with_store_open) !! "tag/store" = Some true.
Proof.
  split; [reflexivity |].
  apply (proj1 (prefetch_only_opens Sample.getTagId ∅ Sample.props
                  Scenario.with_store_open)).
  reflexivity.
Defined.

(** ** Resize observer, continued *)

Section resize_more.

Import ReferenceLayout.

Variable props : ReferenceLayoutProps.
Variable slots : Slots.
Variable attrs_class : list string.
Variable reset scrollbars : string.

(** X12: a resize notification with at least one entry always succeeds,
    only its first entry counts, and the layout rendered from the
    resulting state carries that entry's height as its only inline style,
    [--full-height]; which regions are rendered is not affected. *)
Theorem resize_sets_full_height e rest st :
  ∃ st',
    resizeObserverCallback (e :: rest) st = Js.Ok st'
    ∧ resizeObserverCallback [e] st = Js.Ok st'
    ∧ vnode_style (document_element props slots attrs_class reset scrollbars st')
      = [("--full-height", CssPixels (rect_height (contentRect e)))]
    ∧ region_classes (document_element props slots attrs_class reset scrollbars st')
      = region_classes (document_element props slots attrs_class reset scrollbars st).
Proof.
  eexists. split_and!; reflexivity.
Qed.

End resize_more.

(** ** Shared instance id *)

Section instance_id.

Import InstanceId.

(** X13: the id handed to headless UI always starts with
    [scalar-instance-id], on the server and on the client, with or without
    a current instance; without an instance it is exactly that string. *)
Theorem useId_prefix server instance :
  String.prefix ATTR_KEY (useId server instance).1 = true
  ∧ (instance = None → useId server instance = (ATTR_KEY, None)).
Proof.
  split; [|by intros ->].
  destruct instance as [i|]; simpl.
  - destruct server; [apply prefix_append |].
    destruct (vnode_el i) as [[a|]|]; apply prefix_append.
  - reflexivity.
Qed.

(** X14: the id survives the trip from server to client. If the element
    the client instance is attached to carries the attribute as the server
    stored it, the client computes the id the server computed, whatever
    uid the client instance got. *)
Theorem useId_round_trip server_instance client_instance id stored attributes :
  useId true (Some server_instance) = (id, Some stored) →
  vnode_el client_instance = Some (HostElement attributes) →
  attributes !! ATTR_KEY
    = rendered_attribute <$> (default ∅ (attrs stored) !! ATTR_KEY) →
  (useId false (Some client_instance)).1 = id.
Proof.
  simpl. intros [= <- <-] Hel Hattr. simpl in Hattr.
  rewrite lookup_insert_eq in Hattr. simpl in Hattr.
  rewrite Hel. simpl. unfold getAttribute. by rewrite Hattr.
Qed.

(** X15: on the server the callback records the uid under
    [scalar-instance-id] and keeps every other attribute of the instance;
    on the client it leaves the instance untouched. *)
Theorem useId_attributes instance :
  (∃ stored recorded,
     (useId true (Some instance)).2 = Some stored
     ∧ attrs stored = Some recorded
     ∧ recorded !! ATTR_KEY = Some (AttrNumber (uid instance))
     ∧ (∀ name, name ≠ ATTR_KEY →
          recorded !! name = default ∅ (attrs instance) !! name)
     ∧ uid stored = uid instance ∧ vnode_el stored = vnode_el instance)
  ∧ (useId false (Some instance)).2 = Some instance.
Proof.
  split.
  - eexists _, _. simpl. split_and!; try reflexivity.
    + apply lookup_insert_eq.
    + intros name Hne. by rewrite lookup_insert_ne.
  - simpl. by destruct (vnode_el instance) as [[a|]|].
Qed.

(** X16: the client's fallbacks. An instance with no element, or with a
    node that has no [getAttribute], gets the id built from its own uid;
    an element that lacks the attribute gets [scalar-instance-id-null],
    the same for every instance. *)
Theorem useId_client_fallbacks instance :
  (vnode_el instance = None ∨ vnode_el instance = Some HostOther →
   (useId false (Some instance)).1
   = (ATTR_KEY ++ "-" ++ pretty (uid instance))%string)
  ∧ (∀ attributes,
       vnode_el instance = Some (HostElement attributes) →
       attributes !! ATTR_KEY = None →
       (useId false (Some instance)).1 = "scalar-instance-id-null").
Proof.
  split.
  - simpl. by intros [-> | ->].
  - intros attributes Hel Hattr. simpl. rewrite Hel. simpl.
    unfold getAttribute. by rewrite Hattr.
Qed.

End instance_id.

Lemma useId_round_trip_witness :
  InstanceId.vnode_el Scenario.client_instance
    = Some (InstanceId.HostElement {[ "scalar-instance-id" := "7" ]})
  ∧ (InstanceId.useId false (Some Scenario.client_instance)).1
    = (InstanceId.useId true (Some Scenario.server_instance)).1.
Proof.
  split; [reflexivity |].
  apply (useId_round_trip Scenario.server_instance Scenario.client_instance
           (InstanceId.useId true (Some Scenario.server_instance)).1
           {| InstanceId.uid := 7%N;
              InstanceId.attrs :=
                Some (<[InstanceId.ATTR_KEY := InstanceId.AttrNumber 7%N]>
                        {[ "class" := InstanceId.AttrString "docs" ]});
              InstanceId.vnode_el := None |}
           {[ "scalar-instance-id" := "7" ]});
    [reflexivity | reflexivity | by vm_compute].
Defined.

Lemma useId_client_fallbacks_witness :
  InstanceId.vnode_el Scenario.server_instance = None
  ∧ (InstanceId.useId false (Some Scenario.server_instance)).1
    = (InstanceId.ATTR_KEY ++ "-" ++ pretty 7%N)%string.
Proof.
  split; [reflexivity |].
  apply (proj1 (useId_client_fallbacks Scenario.server_instance)).
  by left.
Defined.

(** ** Layout template, continued *)

Section template_more.

Import ReferenceLayout.

Variable props : ReferenceLayoutProps.
Variable slots : Slots.
Variable attrs_class : list string.
Variable reset scrollbars : string.
Variable st : State.

Local Abbreviation root :=
  (document_element props slots attrs_class reset scrollbars st).
Local Abbreviation cfg := (configuration props).

Local Ltac by_flags :=
  unfold document_element, showRenderedContent, header_region,
    navigation_region, editor_region, rendered_region, footer_region,
    api_client_modal;
  cbv zeta;
  destruct (Js.truthy_flag (showSidebar cfg));
  destruct (isLargeScreen st);
  destruct (Js.truthy_flag (isEditable cfg));
  destruct (slot_supplied slots slot_footer);
  simpl.

Lemma editor_hidden_flag :
  editor_hidden root = negb (Js.truthy_flag (isEditable cfg)).
Proof. unfold editor_hidden, children_with_class. by_flags; done. Qed.

Lemma navigation_region_flag :
  renders_region "references-navigation" root = Js.truthy_flag (showSidebar cfg).
Proof. unfold renders_region. by_flags; done. Qed.

(** X17: the header, the editor region and the API client overlay are in
    every rendering of the layout, whatever the configuration, the
    viewport and the slots; the navigation region is there exactly when
    [showSidebar] is set. *)
Theorem fixed_regions :
  renders_region "references-header" root = true
  ∧ renders_region "references-editor" root = true
  ∧ length (modal_of root) = 1%nat
  ∧ renders_region "references-navigation" root = Js.truthy_flag (showSidebar cfg)
  ∧ length (sidebar_of root) = (if Js.truthy_flag (showSidebar cfg) then 1 else 0)%nat.
Proof. unfold renders_region, modal_of, sidebar_of. by_flags; done. Qed.

(** X18: the editor region is hidden exactly when the configuration is not
    editable, and the layout never comes out with both the editor hidden
    and the rendered content missing. *)
Theorem main_area_never_empty :
  editor_hidden root = negb (Js.truthy_flag (isEditable cfg))
  ∧ negb (editor_hidden root) || renders_region "references-rendered" root = true.
Proof.
  unfold editor_hidden, renders_region, children_with_class.
  by_flags; done.
Qed.


(** X20: the theme handed to the getting-started screen is never empty: it
    is the configured theme, or [default] when no theme or the empty
    string is configured. *)
Theorem getting_started_theme :
  ∃ name,
    prop_value "theme" (getting_started props) = Some (PropString (Some name))
    ∧ name ≠ ""
    ∧ (theme cfg = Some name ∨
       (name = "default" ∧ (theme cfg = None ∨ theme cfg = Some ""))).
Proof.
  unfold getting_started, prop_value; simpl.
  destruct (theme cfg) as [[|a name]|]; simpl; eexists; split_and!;
    try reflexivity; try discriminate; eauto.
Qed.


(** X22: the regions come in a fixed order: header, navigation, editor,
    rendered content, footer, and last the overlay, with those that are
    switched off left out. *)
Theorem regions_in_order :
  region_classes root `sublist_of`
    [Some "references-header"; Some "references-navigation";
     Some "references-editor"; Some "references-rendered";
     Some "references-footer"; None].
Proof.
  unfold region_classes. by_flags;
    repeat first [ apply sublist_nil | apply sublist_skip | apply sublist_cons ].
Qed.

End template_more.

Lemma existsb_eqb_not_elem c (l : list string) :
  c ∉ l → existsb (String.eqb c) l = false.
Proof.
  induction l as [|x l IH]; [done |].
  intros [Hx Hl]%not_elem_of_cons. simpl.
  rewrite IH by done. by apply String.eqb_neq in Hx as ->.
Qed.

Section template_classes.

Import ReferenceLayout.

Variable props : ReferenceLayoutProps.
Variable slots : Slots.
Variable attrs_class : list string.
Variable reset scrollbars : string.
Variable st : State.

Local Abbreviation root :=
  (document_element props slots attrs_class reset scrollbars st).
Local Abbreviation cfg := (configuration props).

(** X23: the grid classes of the layout follow its regions. Unless the
    caller or the style wrappers inject these very class names, the root
    carries [references-editable] exactly when the editor region is
    visible and [references-sidebar] exactly when the navigation region is
    rendered. *)
Theorem grid_classes_follow_regions :
  "references-editable" ∉ reset :: scrollbars :: attrs_class →
  "references-sidebar" ∉ reset :: scrollbars :: attrs_class →
  has_class "references-editable" root = negb (editor_hidden root)
  ∧ has_class "references-sidebar" root
    = renders_region "references-navigation" root.
Proof.
  intros Hed Hsb.
  rewrite editor_hidden_flag, navigation_region_flag.
  unfold has_class, document_element. cbn [vnode_classes].
  rewrite !existsb_app.
  rewrite <- !(existsb_app _ [reset; scrollbars] attrs_class).
  change ([reset; scrollbars] ++ attrs_class)
    with (reset :: scrollbars :: attrs_class).
  rewrite (existsb_eqb_not_elem "references-editable"
             (reset :: scrollbars :: attrs_class)) by done.
  rewrite (existsb_eqb_not_elem "references-sidebar"
             (reset :: scrollbars :: attrs_class)) by done.
  rewrite negb_involutive, !orb_false_r.
  destruct (Js.truthy_flag (isEditable cfg));
    destruct (Js.truthy_flag (showSidebar cfg));
    destruct (isSidebarOpen st);
    destruct (is_classic props); done.
Qed.

End template_classes.

Lemma grid_classes_follow_regions_witness :
  ("references-editable" ∉ ["reset"; "scrollbars"; "docs"]) ∧
  ("references-sidebar" ∉ ["reset"; "scrollbars"; "docs"]) ∧
  has_class "references-editable"
    (ReferenceLayout.document_element Sample.props Sample.footer_only ["docs"]
       "reset" "scrollbars" Sample.at_top)
  = negb (editor_hidden
            (ReferenceLayout.document_element Sample.props Sample.footer_only
               ["docs"] "reset" "scrollbars" Sample.at_top)).
Proof.
  assert ("references-editable" ∉ ["reset"; "scrollbars"; "docs"]) as Hed.
  { repeat (apply not_elem_of_cons; split; [discriminate |]).
    apply not_elem_of_nil. }
  assert ("references-sidebar" ∉ ["reset"; "scrollbars"; "docs"]) as Hsb.
  { repeat (apply not_elem_of_cons; split; [discriminate |]).
    apply not_elem_of_nil. }
  split; [exact Hed | split; [exact Hsb |]].
  apply (grid_classes_follow_regions Sample.props Sample.footer_only ["docs"]
           "reset" "scrollbars" Sample.at_top);
    [exact Hed | exact Hsb].
Defined.

(** ** Request history table, continued *)

Section history_keys.

Import RequestHistory.

(** X24: every rendered item is a [RequestHistoryItem] that is told, in its
    [history] prop, the very id it is keyed by, and gets no slot; so the
    keys of the rendered items are pairwise distinct exactly when the
    store's sequence has no repeated id. *)
Theorem history_keys_distinct store :
  (∀ item, item ∈ rendered_items store →
     vnode_name item = Some "RequestHistoryItem"
     ∧ is_Some (vnode_key item)
     ∧ prop_value "history" item = Some (PropString (vnode_key item))
     ∧ vnode_slots item = [])
  ∧ (NoDup (vnode_key <$> rendered_items store)
     ↔ NoDup (requestHistoryOrder store)).
Proof.
  rewrite rendered_items_unfold. split.
  - intros item (history & -> & _)%list_elem_of_fmap.
    split_and!; [reflexivity | by eexists | reflexivity | reflexivity].
  - rewrite <- list_fmap_compose.
    change (vnode_key ∘ history_item) with (@Some string).
    apply (NoDup_fmap Some).
Qed.

End history_keys.

Lemma history_keys_distinct_witness :
  RequestHistory.history_item "b" ∈ RequestHistory.rendered_items Sample.history
  ∧ vnode_name (RequestHistory.history_item "b") = Some "RequestHistoryItem".
Proof.
  split; [apply list_elem_of_here |].
  apply (proj1 (history_keys_distinct Sample.history)
           (RequestHistory.history_item "b")).
  apply list_elem_of_here.
Defined.

(** ** The statements above on the sample data *)

Lemma useId_prefix_witness :
  (None : option InstanceId.ComponentInstance) = None
  ∧ InstanceId.useId false None = (InstanceId.ATTR_KEY, None).
Proof.
  split; [reflexivity |].
  apply (proj2 (useId_prefix false None)). reflexivity.
Defined.

Lemma useId_attributes_witness :
  "class" ≠ InstanceId.ATTR_KEY
  ∧ ∃ stored recorded,
      (InstanceId.useId true (Some Scenario.server_instance)).2 = Some stored
      ∧ InstanceId.attrs stored = Some recorded
      ∧ recorded !! "class"
        = default ∅ (InstanceId.attrs Scenario.server_instance) !! "class".
Proof.
  split; [discriminate |].
  destruct (proj1 (useId_attributes Scenario.server_instance))
    as (stored & recorded & Hid & Hattrs & _ & Hother & _).
  exists stored, recorded. split; [exact Hid | split; [exact Hattrs |]].
  apply Hother. discriminate.
Defined.

